(** * Open-data API: the query-and-shape pipeline

    A shallow embedding of [src/main.py] (the FastAPI handlers and the
    startup hook) and of [src/app/services/monument.py] (the monument
    query), with the properties of the specification stated over it.

    Python values are a small tagged union, exceptions are an error monad,
    tables are lists of rows in their physical order, the order in which
    the store joins and emits rows is the choice of a plan, and the schema
    of the store is a finite map from table names to tables. What the
    sources do not contain (the schema classes, the store's other
    statements) is a parameter. *)

From Stdlib Require Import ZArith List Ascii String Permutation.
From stdpp Require Import gmap strings list fin_maps.

Open Scope string_scope.
Open Scope Z_scope.

(** ** Python values and exceptions *)

(** The values that rows, request parameters and JSON bodies are made of. *)
#[warnings="-register-all"]
Inductive value : Type :=
| VNone
| VBool (b : bool)
| VInt (z : Z)
| VStr (s : string)
| VList (l : list value)
| VDict (d : list (string * value)).

(** A result row as a mapping from column name to value, in SELECT order
    ([dict(row)], or a row object read by attribute). *)
Abbreviation row := (list (string * value)).

(** The exceptions the modelled code raises or lets through. [DBAPIError]
    stands for [sqlalchemy.exc.DBAPIError] and its subclasses
    ([ProgrammingError], [DataError]), [ValidationError] for the refusal
    of a value by a schema class. *)
Inductive exn : Type :=
| IndexError
| AttributeError
| ArgumentError
| DBAPIError
| ValidationError
| InvalidRequestError
| HTTPException (status_code : Z) (detail : string).

Inductive result (A : Type) : Type :=
| Ok (a : A)
| Raise (e : exn).
Arguments Ok {A} a.
Arguments Raise {A} e.

#[global] Instance result_ret : MRet result := fun A a => Ok a.

#[global] Instance result_bind : MBind result := fun A B k r =>
  match r with
  | Ok a => k a
  | Raise e => Raise e
  end.

(** [[f(r) for r in rows]]: left to right, the first exception escapes. *)
Fixpoint comprehension {A B} (f : A -> result B) (l : list A) : result (list B) :=
  match l with
  | [] => Ok []
  | a :: l' => b ← f a; bs ← comprehension f l'; Ok (b :: bs)
  end.

(** [l[i]] on a Python list, for a non-negative index. *)
Definition getitem {A} (l : list A) (i : nat) : result A :=
  match l !! i with
  | Some a => Ok a
  | None => Raise IndexError
  end.

(** Lookup in a row by column (or attribute) name: the first binding. *)
Fixpoint assoc (k : string) (d : row) : option value :=
  match d with
  | [] => None
  | (k', v) :: d' => if String.eqb k k' then Some v else assoc k d'
  end.

(** ** The monument query, [src/app/services/monument.py] *)

Module Monument.

(** The three tables the statement reads. Key columns are integers; a
    label may be NULL; the remaining columns of a monument are carried as
    values, and its geometry in the store's own representation. *)
Record sh_monument_x_reason_row := {
  mxr_monument_id : Z;
  mxr_reason_id : Z
}.

Record sh_monument_reason_row := {
  mr_id : Z;
  mr_label : option string
}.


(** *** The statement: [text(...)] and [bindparams] *)

(** The SQL text handed to [text], character for character. *)
Definition monument_sql : string := "
    WITH monument_reasons AS (
        SELECT
            mxr.monument_id,
            string_agg(mr.label, ', ') AS reason_labels
        FROM
            sh_monument_x_reason AS mxr
        JOIN
            sh_monument_reason AS mr
        ON
            mxr.reason_id = mr.id
        GROUP BY
            mxr.monument_id
    )
    SELECT
        ST_AsGeoJSON(m.wkb_geometry, 15)::jsonb AS geojson,
        m.object_id,
        m.street,
        m.housenumber,
        m.postcode,
        m.city,
        m.image_url,
        m.designation,
        m.description,
        m.monument_type,
        r.reason_labels AS monument_reason
    FROM
        sh_monuments AS m
    LEFT JOIN
        monument_reasons AS r
    ON
        m.id = r.monument_id
    WHERE
        m.id = :q
    ".

(** [\w] of the placeholder pattern, over the characters of an ASCII text. *)
Definition is_word (c : ascii) : bool :=
  let n := Z.of_N (N_of_ascii c) in
  ((48 <=? n) && (n <=? 57)) || ((65 <=? n) && (n <=? 90))
  || ((97 <=? n) && (n <=? 122)) || (n =? 95).

Definition colon : ascii := ":"%char.
Definition backslash : ascii := Ascii.ascii_of_nat 92.

(** The scanner for the pattern [(?<![:\w\x5c]):(\w+)(?!:)] with which
    [text] finds the named placeholders: where it stands after the
    characters read so far. *)
Inductive scan_state : Type :=
| Idle (prev : option ascii)
| Colon
| InName (acc : list ascii).

(** The look-behind: the colon is not preceded by a colon, a word character
    or a backslash. *)
Definition lookbehind_ok (prev : option ascii) : bool :=
  match prev with
  | None => true
  | Some p => negb (Ascii.eqb p colon || is_word p || Ascii.eqb p backslash)
  end.

(** One character. [acc] holds the name read so far, last character first.
    A name followed by a colon loses its last character (the pattern
    backtracks to satisfy the look-ahead), and is no match when it has only
    one. *)
Definition scan_step (st : scan_state) (c : ascii) : scan_state * list string :=
  match st with
  | Idle prev =>
      if Ascii.eqb c colon && lookbehind_ok prev then (Colon, [])
      else (Idle (Some c), [])
  | Colon =>
      if is_word c then (InName [c], []) else (Idle (Some c), [])
  | InName acc =>
      if is_word c then (InName (c :: acc), [])
      else if Ascii.eqb c colon then
        (Idle (Some c),
         match acc with
         | _ :: (_ :: _) as shorter => [string_of_list_ascii (rev shorter)]
         | _ => []
         end)
      else (Idle (Some c), [string_of_list_ascii (rev acc)])
  end.

Definition scan_end (st : scan_state) : list string :=
  match st with
  | InName acc => [string_of_list_ascii (rev acc)]
  | _ => []
  end.

Fixpoint scan (st : scan_state) (cs : list ascii) : list string :=
  match cs with
  | [] => scan_end st
  | c :: cs' => let '(st', out) := scan_step st c in out ++ scan st' cs'
  end.

Definition bind_names (sql : string) : list string :=
  scan (Idle None) (list_ascii_of_string sql).

(** A [TextClause]: the SQL text and its named parameters, each with the
    value bound to it, if any. *)
Record TextClause := {
  tc_text : string;
  tc_bindparams : gmap string (option value)
}.

Definition text (sql : string) : TextClause :=
  {| tc_text := sql;
     tc_bindparams := list_to_map ((fun n => (n, None)) <$> bind_names sql) |}.

(** [stmt.bindparams(name=v)]: a name the text does not define is an
    [ArgumentError]; the text itself is never touched. *)
Definition bindparams (stmt : TextClause) (name : string) (v : value) : result TextClause :=
  match tc_bindparams stmt !! name with
  | Some _ =>
      Ok {| tc_text := tc_text stmt;
            tc_bindparams := <[name := Some v]> (tc_bindparams stmt) |}
  | None => Raise ArgumentError
  end.

(** *** Joins and plans

    The statement has no ORDER BY, neither in [string_agg] nor at its end:
    the order in which the joined rows reach the aggregate, and the order
    of the rows of the result, are the choice of the plan the store
    executes, which can differ from one execution to the next. *)

(** The join [sh_monument_x_reason AS mxr JOIN sh_monument_reason AS mr ON
    mxr.reason_id = mr.id], projected on [(mxr.monument_id, mr.label)], as
    a nested loop with the relation table outside. *)
Definition nested_loop_mxr_outer (mxr : list sh_monument_x_reason_row)
    (mr : list sh_monument_reason_row) : list (Z * option string) :=
  x ← mxr;
  r ← filter (fun r => mxr_reason_id x = mr_id r) mr;
  [(mxr_monument_id x, mr_label r)].

(** The same join as a nested loop with the label table outside. *)
Definition nested_loop_mr_outer (mxr : list sh_monument_x_reason_row)
    (mr : list sh_monument_reason_row) : list (Z * option string) :=
  r ← mr;
  x ← filter (fun x => mxr_reason_id x = mr_id r) mxr;
  [(mxr_monument_id x, mr_label r)].

(** A plan: a way to compute the join, which delivers the joined rows in an
    order of its choice, and an order in which it emits the rows of the
    result. *)
Record plan := {
  join_rows :
    list sh_monument_x_reason_row → list sh_monument_reason_row →
    list (Z * option string);
  join_rows_perm : ∀ mxr mr, join_rows mxr mr ≡ₚ nested_loop_mxr_outer mxr mr;
  emit_rows : list row → list row;
  emit_rows_perm : ∀ rows, emit_rows rows ≡ₚ rows
}.

Lemma bind_nil_r {A B} (l : list A) : (l ≫= fun _ => @nil B) = [].
Proof. induction l as [|a l IH]; [done|]. by rewrite bind_cons, IH. Qed.

Lemma bind_app_perm {A B} (g h : A → list B) (l : list A) :
  (a ← l; (g a ++ h a)%list) ≡ₚ ((l ≫= g) ++ (l ≫= h))%list.
Proof.
  induction l as [|a l IH]; [done|].
  rewrite !bind_cons, IH, <- !app_assoc. apply Permutation_app_head.
  apply Permutation_app_swap_app.
Qed.

Lemma nested_loop_swap mxr mr :
  nested_loop_mr_outer mxr mr ≡ₚ nested_loop_mxr_outer mxr mr.
Proof.
  unfold nested_loop_mr_outer, nested_loop_mxr_outer.
  induction mxr as [|x mxr IH].
  - simpl. by rewrite bind_nil_r.
  - rewrite bind_cons, <- IH. clear IH.
    assert (Hsplit : ∀ r : sh_monument_reason_row,
              (x' ← filter (fun x' => mxr_reason_id x' = mr_id r) (x :: mxr);
               [(mxr_monument_id x', mr_label r)])
              = ((if decide (mxr_reason_id x = mr_id r)
                  then [(mxr_monument_id x, mr_label r)] else [])
                 ++ (x' ← filter (fun x' => mxr_reason_id x' = mr_id r) mxr;
                     [(mxr_monument_id x', mr_label r)]))%list).
    { intros r. rewrite filter_cons. by destruct (decide _). }
    assert (Hhead : (r ← mr;
                     if decide (mxr_reason_id x = mr_id r)
                     then [(mxr_monument_id x, mr_label r)] else [])
                    = (r ← filter (fun r => mxr_reason_id x = mr_id r) mr;
                       [(mxr_monument_id x, mr_label r)])).
    { induction mr as [|r mr IHmr]; [done|].
      rewrite bind_cons, filter_cons, IHmr. by destruct (decide _). }
    rewrite <- Hhead, <- bind_app_perm. clear Hhead.
    induction mr as [|r mr IHmr]; [done|].
    rewrite !bind_cons, Hsplit. by apply Permutation_app_head.
Qed.

(** Two plans: the relation table outside, and the label table outside;
    both emit the result as it comes. *)
Definition relation_table_outside : plan :=
  {| join_rows := nested_loop_mxr_outer;
     join_rows_perm := fun mxr mr => Permutation_refl _;
     emit_rows := fun rows => rows;
     emit_rows_perm := fun rows => Permutation_refl _ |}.

Definition label_table_outside : plan :=
  {| join_rows := nested_loop_mr_outer;
     join_rows_perm := nested_loop_swap;
     emit_rows := fun rows => rows;
     emit_rows_perm := fun rows => Permutation_refl _ |}.

(** [string_agg(expr, sep)] without ORDER BY: NULLs are skipped, the other
    values are concatenated in the order the rows arrive, and no value at
    all gives NULL. *)
Definition string_agg (vals : list (option string)) (sep : string) : option string :=
  match omap id vals with
  | [] => None
  | ls => Some (String.concat sep ls)
  end.

(** The keys of [GROUP BY], each once. *)
Fixpoint group_keys (ks : list Z) : list Z :=
  match ks with
  | [] => []
  | k :: ks' => k :: filter (fun k' => k' ≠ k) (group_keys ks')
  end.

(** The labels that reach the aggregate for the group of monument [k],
    in the order in which the plan delivers them. *)
Definition delivered_labels (p : plan) (mxr : list sh_monument_x_reason_row)
    (mr : list sh_monument_reason_row) (k : Z) : list (option string) :=
  snd <$> filter (fun jr => fst jr = k) (join_rows p mxr mr).

(** The CTE [monument_reasons]: one row [(monument_id, reason_labels)] per
    group. *)
Definition monument_reasons (p : plan) (mxr : list sh_monument_x_reason_row)
    (mr : list sh_monument_reason_row) : list (Z * option string) :=
  (fun k => (k, string_agg (delivered_labels p mxr mr k) ", "))
    <$> group_keys (fst <$> join_rows p mxr mr).

(** The labels of monument [k], listed in one order among the possible
    ones; the properties below use the listing up to permutation only. *)
Definition label_listing (mxr : list sh_monument_x_reason_row)
    (mr : list sh_monument_reason_row) (k : Z) : list (option string) :=
  x ← filter (fun x => mxr_monument_id x = k) mxr;
  mr_label <$> filter (fun r => mxr_reason_id x = mr_id r) mr.

Definition null_or_str (o : option string) : value :=
  match o with
  | Some l => VStr l
  | None => VNone
  end.

(** The keys of [sh_monuments] are 64-bit integers. *)
Definition in_int64 (z : Z) : bool :=
  (-9223372036854775808 <=? z) && (z <=? 9223372036854775807).

Section Store.

Variable geometry : Type.

(** [ST_AsGeoJSON(geom, maxdecimaldigits)::jsonb] of the spatial store. *)
Variable ST_AsGeoJSON : geometry -> Z -> value.

Record sh_monuments_row := {
  m_id : Z;
  m_id_bigint : Is_true (in_int64 m_id);
  m_wkb_geometry : geometry;
  m_object_id : value;
  m_street : value;
  m_housenumber : value;
  m_postcode : value;
  m_city : value;
  m_image_url : value;
  m_designation : value;
  m_description : value;
  m_monument_type : value
}.

Record snapshot := {
  sh_monuments : list sh_monuments_row;
  sh_monument_x_reason : list sh_monument_x_reason_row;
  sh_monument_reason : list sh_monument_reason_row
}.

(** What the store does with a statement other than the one modelled
    here: left open. *)
Variable other_statement :
  string → gmap string (option value) → snapshot → result (list row).

(** The SELECT list, for a monument and the [reason_labels] joined to it. *)
Definition select_list (m : sh_monuments_row) (reason_labels : option string) : row :=
  [ ("geojson", ST_AsGeoJSON (m_wkb_geometry m) 15);
    ("object_id", m_object_id m);
    ("street", m_street m);
    ("housenumber", m_housenumber m);
    ("postcode", m_postcode m);
    ("city", m_city m);
    ("image_url", m_image_url m);
    ("designation", m_designation m);
    ("description", m_description m);
    ("monument_type", m_monument_type m);
    ("monument_reason", null_or_str reason_labels) ].

(** [sh_monuments AS m LEFT JOIN monument_reasons AS r ON m.id =
    r.monument_id], for one row of [m]: its matches, or a single
    NULL-extended row when there is none. *)
Definition left_join_row (cte : list (Z * option string)) (m : sh_monuments_row) : list row :=
  match filter (fun r => m_id m = fst r) cte with
  | [] => [select_list m None]
  | rs => (fun r => select_list m (snd r)) <$> rs
  end.

(** The whole statement with [:q] bound to [q], executed with plan [p]. *)
Definition monument_query (p : plan) (s : snapshot) (q : Z) : list row :=
  emit_rows p
    (m ← filter (fun m => m_id m = q) (sh_monuments s);
     left_join_row
       (monument_reasons p (sh_monument_x_reason s) (sh_monument_reason s)) m).

(** The row of the result for monument [m] under plan [p]. *)
Definition row_of (p : plan) (s : snapshot) (m : sh_monuments_row) : row :=
  select_list m
    (string_agg
       (delivered_labels p (sh_monument_x_reason s) (sh_monument_reason s) (m_id m))
       ", ").

(** Two executions, each on its own snapshot and with its own plan, agree
    on the key [q] up to the order of the rows and of the labels: they
    return the rows of the same monuments, built from the same labels. *)
Definition answers_agree (p : plan) (s : snapshot) (p' : plan) (s' : snapshot)
    (q : Z) : Prop :=
  let ms := filter (fun m => m_id m = q) (sh_monuments s) in
  monument_query p s q ≡ₚ row_of p s <$> ms
  ∧ monument_query p' s' q ≡ₚ row_of p' s' <$> ms
  ∧ delivered_labels p' (sh_monument_x_reason s') (sh_monument_reason s') q
    ≡ₚ delivered_labels p (sh_monument_x_reason s) (sh_monument_reason s) q.

(** [session.execute(sql)] and [result.mappings().all()]. The store is
    given the text and the parameter map. For the text of the monument
    statement, the value of [q] decides: a 64-bit integer selects by key,
    NULL compares true with no key, any other value is refused with a
    [DBAPIError], and a parameter left without a value is refused before
    anything is sent. Nothing is written. *)
Definition session_execute (p : plan) (s : snapshot) (sql : TextClause)
    : result (list row) :=
  if bool_decide (tc_text sql = monument_sql) then
    match tc_bindparams sql !! "q" with
    | Some (Some (VInt q)) =>
        if in_int64 q then Ok (monument_query p s q) else Raise DBAPIError
    | Some (Some VNone) => Ok []
    | Some (Some _) => Raise DBAPIError
    | _ => Raise InvalidRequestError
    end
  else other_statement (tc_text sql) (tc_bindparams sql) s.

Definition get_monument_by_object_id (p : plan) (s : snapshot) (object_id : value)
    : result (list row) :=
  let stmt := text monument_sql in
  sql ← bindparams stmt "q" object_id;
  rows ← session_execute p s sql;
  Ok ((fun r : row => r) <$> (rows : list row)).

End Store.

Arguments Build_sh_monuments_row {geometry}.
Arguments m_id {geometry}.
Arguments m_id_bigint {geometry}.
Arguments m_wkb_geometry {geometry}.
Arguments Build_snapshot {geometry}.
Arguments sh_monuments {geometry}.
Arguments sh_monument_x_reason {geometry}.
Arguments sh_monument_reason {geometry}.
Arguments select_list {geometry}.
Arguments left_join_row {geometry}.
Arguments monument_query {geometry}.
Arguments row_of {geometry}.
Arguments answers_agree {geometry}.
Arguments session_execute {geometry}.
Arguments get_monument_by_object_id {geometry}.

End Monument.

(** ** The handlers, [src/main.py] *)

Module Main.

(** *** The framework's side of a request *)

Inductive body : Type :=
| JsonBody (v : value)
| TextBody (s : string).

Record Response := {
  status_code : Z;
  content : body
}.

(** [JSONResponse(content=v)], with the default status. *)
Definition JSONResponse (v : value) : Response :=
  {| status_code := 200; content := JsonBody v |}.

(** What a handler hands back: a response of its own, or a list of schema
    objects for the route's [response_model]. *)
Inductive returned : Type :=
| Direct (r : Response)
| Models (l : list value).

(** What the client receives. A response goes out as it is; a list of
    models is serialised as a JSON array with status 200; an
    [HTTPException] becomes its status with [{"detail": ...}]; any other
    exception leaves the handler unhandled and the server answers 500. *)
Definition fastapi (r : result returned) : Response :=
  match r with
  | Ok (Direct resp) => resp
  | Ok (Models l) => JSONResponse (VList l)
  | Raise (HTTPException code detail) =>
      {| status_code := code; content := JsonBody (VDict [("detail", VStr detail)]) |}
  | Raise _ => {| status_code := 500; content := TextBody "Internal Server Error" |}
  end.

(** [jsonable_encoder(rows)] on a list of row mappings: a list of JSON
    objects, one per row, in the same order. *)
Definition jsonable_encoder (rows : list row) : list value := VDict <$> rows.

(** [try: body except IndexError: handler]. *)
Definition except_IndexError {A} (body handler : result A) : result A :=
  match body with
  | Raise IndexError => handler
  | r => r
  end.

(** [try: body except AttributeError: handler]. *)
Definition except_AttributeError {A} (body handler : result A) : result A :=
  match body with
  | Raise AttributeError => handler
  | r => r
  end.

(** [r.name] on a row object. *)
Definition getattr (r : row) (name : string) : result value :=
  match assoc name r with
  | Some v => Ok v
  | None => Raise AttributeError
  end.

(** [row.name] where [row] may be [None]. *)
Definition getattr_opt (r : option row) (name : string) : result value :=
  match r with
  | Some r => getattr r name
  | None => Raise AttributeError
  end.

(** *** Schema classes

    Modelled from the spec: the classes of the [schemas] module, which is
    not part of the sources. A class declares named fields, each of one of
    the types the spec names: integer, float, string, nested JSON
    object. *)
Inductive field_type : Type :=
| TInt
| TFloat
| TStr
| TJson.

Abbreviation model_class := (list (string * field_type)).

(** Modelled from the spec: [schemas.District], with the two fields of the
    spec's scenario, an integer id and a name. *)
Definition District : model_class :=
  [("district_id", TInt); ("district_name", TStr)].

Section Schemas.

(** What a field does with a value that is not of its type: the value it
    is coerced to, or none when it is refused. Left open. *)
Variable coerce : field_type → value → option value.

(** The declarations of the classes the spec does not show. Left open. *)
Variable other_classes : string → model_class.

(** [schemas.Name]. *)
Definition schemas (name : string) : model_class :=
  if String.eqb name "District" then District else other_classes name.

(** A value given for a field: kept when it is of the field's type,
    coerced or refused otherwise. *)
Definition validate (t : field_type) (v : value) : result value :=
  match t, v with
  | TInt, VInt _ | TStr, VStr _ | TJson, VDict _ => Ok v
  | _, _ =>
      match coerce t v with
      | Some v' => Ok v'
      | None => Raise ValidationError
      end
  end.

(** [cls(f1=v1, ..., fn=vn)]: every declared field must be given and pass; arguments
    that are not fields are ignored; the object has the declared fields. *)
Fixpoint construct_fields (cls : model_class) (args : list (string * value))
    : result (list (string * value)) :=
  match cls with
  | [] => Ok []
  | (f, t) :: cls' =>
      match assoc f args with
      | Some v =>
          v' ← validate t v; fs ← construct_fields cls' args; Ok ((f, v') :: fs)
      | None => Raise ValidationError
      end
  end.

Definition construct (cls : model_class) (args : list (string * value))
    : result value :=
  fs ← construct_fields cls args; Ok (VDict fs).

(** The keyword arguments [f1=r.a1, ..., fn=r.an], read from left to
    right. *)
Fixpoint keyword_arguments (kwargs : list (string * string)) (r : row)
    : result (list (string * value)) :=
  match kwargs with
  | [] => Ok []
  | (f, a) :: kwargs' =>
      v ← getattr r a; args ← keyword_arguments kwargs' r; Ok ((f, v) :: args)
  end.

(** [schema(f1=r.a1, ..., fn=r.an)]. *)
Definition call (schema : model_class) (kwargs : list (string * string)) (r : row)
    : result value :=
  args ← keyword_arguments kwargs r; construct schema args.

(** *** Lookups of one entity

    Each handler is a function of what its call into the [service] module
    returned. *)

(** [/alkis/v1/parcel]. *)
Definition get_parcel_meta (rows : list row) : result returned :=
  let response := jsonable_encoder rows in
  except_IndexError
    (r ← getitem response 0; Ok (Direct (JSONResponse r)))
    (Raise (HTTPException 404 "Not found")).

(** [/biotope/v1/point]. *)
Definition get_biotop_meta (rows : list row) : result returned :=
  let response := jsonable_encoder rows in
  except_IndexError
    (r ← getitem response 0; Ok (Direct (JSONResponse r)))
    (Raise (HTTPException 404 "Not found")).

(** [/biotope/v1/origin]. *)
Definition get_biotop_origin (rows : list row) : result returned :=
  let response := jsonable_encoder rows in
  except_IndexError
    (r ← getitem response 0; Ok (Direct (JSONResponse r)))
    (Raise (HTTPException 404 "Not found")).

(** [/monuments/v1/details]. *)
Definition get_monuments (rows : list row) : result returned :=
  let monuments := jsonable_encoder rows in
  r ← getitem monuments 0; Ok (Direct (JSONResponse r)).

(** [/accidents/v1/meta]. *)
Definition get_accident_meta (rows : list row) : result returned :=
  let result := jsonable_encoder rows in
  r ← getitem result 0; Ok (Direct (JSONResponse r)).

(** [/accidents/v1/details]. *)
Definition get_accident_details_by_city (rows : list row) : result returned :=
  let result := jsonable_encoder rows in
  r ← getitem result 0; Ok (Direct (JSONResponse r)).

(** [/demographics/v1/details]. *)
Definition get_district_details (rows : list row) : result returned :=
  let result := jsonable_encoder rows in
  r ← getitem result 0; Ok (Direct (JSONResponse r)).

(** [/demographics/v1/{district_id}]: the service returns one row, or
    [None] when there is no such district. *)
Definition get_district (row : option row) : result returned :=
  let schema := schemas "District" in
  except_AttributeError
    (district_id ← getattr_opt row "id";
     district_name ← getattr_opt row "name";
     model ← construct schema [("district_id", district_id);
                               ("district_name", district_name)];
     Ok (Models [model]))
    (Raise (HTTPException 404 "Not found")).

(** *** Collections, all under [/demographics/v1] *)

(** [/meta]. *)
Definition get_demographics_meta (rows : list row) : result returned :=
  let result := jsonable_encoder rows in
  Ok (Direct (JSONResponse (VList result))).

(** [/districts/]. *)
Definition get_districts (rows : list row) : result returned :=
  let schema := schemas "District" in
  models ← comprehension (call schema
      [ ("district_id", "id"); ("district_name", "name") ]) rows;
  Ok (Models models).

(** [/household/types]. *)
Definition get_household_types (rows : list row) : result returned :=
  let schema := schemas "HouseholdTypes" in
  models ← comprehension (call schema
      [ ("household_id", "id"); ("household_type", "label") ]) rows;
  Ok (Models models).

(** [/residents/agegroups]. *)
Definition get_residents_by_age_groups (rows : list row) : result returned :=
  let schema := schemas "AgeGroupsOfResidents" in
  models ← comprehension (call schema
      [ ("year", "year"); ("age_under_18", "age_under_18");
        ("age_18_to_under_30", "age_18_to_under_30");
        ("age_30_to_under_45", "age_30_to_under_45");
        ("age_45_to_under_65", "age_45_to_under_65");
        ("age_65_to_under_80", "age_65_to_under_80");
        ("age_80_and_above", "age_80_and_above") ]) rows;
  Ok (Models models).

(** [/residents/nongermans]. *)
Definition get_residents_non_germans (rows : list row) : result returned :=
  let schema := schemas "NonGermanNationalsResidenceStatus" in
  models ← comprehension (call schema
      [ ("year", "year"); ("permanent_residency",
        "permanent_residency");
        ("permanent_residency_according_eu_freedom_movement_act",
        "permanent_residency_according_eu_freedom_movement_act");
        ("permanent_residency_third_country_nationality",
        "permanent_residency_third_country_nationality");
        ("without_permanent_residency", "without_permanent_residency");
        ("asylum_seeker", "asylum_seeker");
        ("suspension_of_deportation", "suspension_of_deportation") ]) rows;
  Ok (Models models).

(** [/residents/debtcounseling]. *)
Definition get_residents_debt_counseling (rows : list row) : result returned :=
  let schema := schemas "DebtCounselingOfResidents" in
  models ← comprehension (call schema
      [ ("year", "year"); ("household_type_id", "household_type_id");
        ("residents", "residents") ]) rows;
  Ok (Models models).

(** [/residents/education/support]. *)
Definition get_residents_education_support (rows : list row) : result returned :=
  let schema := schemas "ChildEducationSupport" in
  models ← comprehension (call schema
      [ ("year", "year"); ("educational_assistance",
        "educational_assistance"); ("parenting_counselor",
        "parenting_counselor"); ("pedagogical_family_assistance",
        "pedagogical_family_assistance"); ("child_day_care_facility",
        "child_day_care_facility"); ("full_time_care",
        "full_time_care"); ("residential_education",
        "residential_education"); ("integration_assistance",
        "integration_assistance"); ("additional_support",
        "additional_support") ]) rows;
  Ok (Models models).

(** [/districts/residents]. *)
Definition get_residents_by_districts (rows : list row) : result returned :=
  let schema := schemas "ResidentsByDistrict" in
  models ← comprehension (call schema
      [ ("year", "year"); ("district_id", "district_id"); ("residents",
        "residents") ]) rows;
  Ok (Models models).

(** [/{district_id}/residents]. *)
Definition get_residents_by_district (rows : list row) : result returned :=
  let schema := schemas "ResidentsByDistrict" in
  models ← comprehension (call schema
      [ ("year", "year"); ("district_id", "district_id"); ("residents",
        "residents") ]) rows;
  Ok (Models models).

(** [/districts/residents/births]. *)
Definition get_residents_births_by_districts (rows : list row) : result returned :=
  let schema := schemas "BirthsByDistrict" in
  models ← comprehension (call schema
      [ ("year", "year"); ("district_id", "district_id"); ("births",
        "births"); ("birth_rate", "birth_rate") ]) rows;
  Ok (Models models).

(** [/{district_id}/residents/births]. *)
Definition get_residents_births_by_district (rows : list row) : result returned :=
  let schema := schemas "BirthsByDistrict" in
  models ← comprehension (call schema
      [ ("year", "year"); ("district_id", "district_id"); ("births",
        "births"); ("birth_rate", "birth_rate") ]) rows;
  Ok (Models models).

(** [/districts/residents/employed]. *)
Definition get_residents_employed_by_districts (rows : list row) : result returned :=
  let schema := schemas "EmployedWithPensionInsuranceByDistrict" in
  models ← comprehension (call schema
      [ ("year", "year"); ("district_id", "district_id"); ("residents",
        "residents"); ("employment_rate", "employment_rate") ]) rows;
  Ok (Models models).

(** [/{district_id}/residents/employed]. *)
Definition get_residents_employed_by_district (rows : list row) : result returned :=
  let schema := schemas "EmployedWithPensionInsuranceByDistrict" in
  models ← comprehension (call schema
      [ ("year", "year"); ("district_id", "district_id"); ("residents",
        "residents"); ("employment_rate", "employment_rate") ]) rows;
  Ok (Models models).

(** [/districts/residents/ageratio]. *)
Definition get_residents_ageratio_by_districts (rows : list row) : result returned :=
  let schema := schemas "AgeRatioByDistrict" in
  models ← comprehension (call schema
      [ ("year", "year"); ("district_id", "district_id"); ("quotient",
        "quotient") ]) rows;
  Ok (Models models).

(** [/{district_id}/residents/ageratio]. *)
Definition get_residents_ageratio_by_district (rows : list row) : result returned :=
  let schema := schemas "AgeRatioByDistrict" in
  models ← comprehension (call schema
      [ ("year", "year"); ("district_id", "district_id"); ("quotient",
        "quotient") ]) rows;
  Ok (Models models).

(** [/districts/residents/basicbenefits]. *)
Definition get_residents_basicbenefits_by_districts (rows : list row) : result returned :=
  let schema := schemas "BasicBenefitsIncomeByDistrict" in
  models ← comprehension (call schema
      [ ("year", "year"); ("district_id", "district_id"); ("male",
        "male"); ("female", "female"); ("age_18_to_under_65",
        "age_18_to_under_65"); ("age_65_and_above", "age_65_and_above") ]) rows;
  Ok (Models models).

(** [/{district_id}/residents/basicbenefits]. *)
Definition get_residents_basicbenefits_by_district (rows : list row) : result returned :=
  let schema := schemas "BasicBenefitsIncomeByDistrict" in
  models ← comprehension (call schema
      [ ("year", "year"); ("district_id", "district_id"); ("male",
        "male"); ("female", "female"); ("age_18_to_under_65",
        "age_18_to_under_65"); ("age_65_and_above", "age_65_and_above") ]) rows;
  Ok (Models models).

(** [/districts/residents/ageunder18]. *)
Definition get_residents_ageunder18_by_districts (rows : list row) : result returned :=
  let schema := schemas "ChildrenAgeUnder18ByDistrict" in
  models ← comprehension (call schema
      [ ("year", "year"); ("district_id", "district_id"); ("residents",
        "residents") ]) rows;
  Ok (Models models).

(** [/{district_id}/residents/ageunder18]. *)
Definition get_residents_ageunder18_by_district (rows : list row) : result returned :=
  let schema := schemas "ChildrenAgeUnder18ByDistrict" in
  models ← comprehension (call schema
      [ ("year", "year"); ("district_id", "district_id"); ("residents",
        "residents") ]) rows;
  Ok (Models models).

(** [/districts/residents/age18tounder65]. *)
Definition get_residents_age18tounder65_by_districts (rows : list row) : result returned :=
  let schema := schemas "ResidentsAge18ToUnder65ByDistrict" in
  models ← comprehension (call schema
      [ ("year", "year"); ("district_id", "district_id"); ("residents",
        "residents") ]) rows;
  Ok (Models models).

(** [/{district_id}/residents/age18tounder65]. *)
Definition get_residents_age18tounder65_by_district (rows : list row) : result returned :=
  let schema := schemas "ResidentsAge18ToUnder65ByDistrict" in
  models ← comprehension (call schema
      [ ("year", "year"); ("district_id", "district_id"); ("residents",
        "residents") ]) rows;
  Ok (Models models).

(** [/districts/residents/age65andabove]. *)
Definition get_residents_age65andabove_by_districts (rows : list row) : result returned :=
  let schema := schemas "ResidentsAge65AndAboveByDistrict" in
  models ← comprehension (call schema
      [ ("year", "year"); ("district_id", "district_id"); ("residents",
        "residents") ]) rows;
  Ok (Models models).

(** [/{district_id}/residents/age65andabove]. *)
Definition get_residents_age65andabove_by_district (rows : list row) : result returned :=
  let schema := schemas "ResidentsAge65AndAboveByDistrict" in
  models ← comprehension (call schema
      [ ("year", "year"); ("district_id", "district_id"); ("residents",
        "residents") ]) rows;
  Ok (Models models).

(** [/districts/residents/agegroups]. *)
Definition get_residents_agegroups_by_districts (rows : list row) : result returned :=
  let schema := schemas "AgeGroupsOfResidentsByDistrict" in
  models ← comprehension (call schema
      [ ("year", "year"); ("district_id", "district_id");
        ("age_under_18", "age_under_18"); ("age_18_to_under_30",
        "age_18_to_under_30"); ("age_30_to_under_45",
        "age_30_to_under_45"); ("age_45_to_under_65",
        "age_45_to_under_65"); ("age_65_to_under_80",
        "age_65_to_under_80"); ("age_80_and_above", "age_80_and_above");
        ("age_0_to_under_7", "age_0_to_under_7"); ("age_60_and_above",
        "age_60_and_above") ]) rows;
  Ok (Models models).

(** [/{district_id}/residents/agegroups]. *)
Definition get_residents_agegroups_by_district (rows : list row) : result returned :=
  let schema := schemas "AgeGroupsOfResidentsByDistrict" in
  models ← comprehension (call schema
      [ ("year", "year"); ("district_id", "district_id");
        ("age_under_18", "age_under_18"); ("age_18_to_under_30",
        "age_18_to_under_30"); ("age_30_to_under_45",
        "age_30_to_under_45"); ("age_45_to_under_65",
        "age_45_to_under_65"); ("age_65_to_under_80",
        "age_65_to_under_80"); ("age_80_and_above", "age_80_and_above");
        ("age_0_to_under_7", "age_0_to_under_7"); ("age_60_and_above",
        "age_60_and_above") ]) rows;
  Ok (Models models).

(** [/districts/residents/unemployed]. *)
Definition get_residents_unemployed_by_districts (rows : list row) : result returned :=
  let schema := schemas "UnemployedResidentsByDistrict" in
  models ← comprehension (call schema
      [ ("year", "year"); ("district_id", "district_id"); ("residents",
        "residents") ]) rows;
  Ok (Models models).

(** [/{district_id}/residents/unemployed]. *)
Definition get_residents_unemployed_by_district (rows : list row) : result returned :=
  let schema := schemas "UnemployedResidentsByDistrict" in
  models ← comprehension (call schema
      [ ("year", "year"); ("district_id", "district_id"); ("residents",
        "residents") ]) rows;
  Ok (Models models).

(** [/districts/residents/unemployed/categorized]. *)
Definition get_residents_unemployed_by_categories_by_districts (rows : list row) : result returned :=
  let schema := schemas "UnemployedCategorizedResidentsByDistrict" in
  models ← comprehension (call schema
      [ ("year", "year"); ("district_id", "district_id");
        ("unemployed_total", "unemployed_total");
        ("percentage_of_total", "percentage_of_total");
        ("percentage_sgb_iii", "percentage_sgb_iii");
        ("percentage_sgb_ii", "percentage_sgb_ii");
        ("percentage_foreign_citizenship",
        "percentage_foreign_citizenship"); ("percentage_female",
        "percentage_female"); ("percentage_age_under_25",
        "percentage_age_under_25") ]) rows;
  Ok (Models models).

(** [/{district_id}/residents/unemployed/categorized]. *)
Definition get_residents_unemployed_by_categories_by_district (rows : list row) : result returned :=
  let schema := schemas "UnemployedCategorizedResidentsByDistrict" in
  models ← comprehension (call schema
      [ ("year", "year"); ("district_id", "district_id");
        ("unemployed_total", "unemployed_total");
        ("percentage_of_total", "percentage_of_total");
        ("percentage_sgb_iii", "percentage_sgb_iii");
        ("percentage_sgb_ii", "percentage_sgb_ii");
        ("percentage_foreign_citizenship",
        "percentage_foreign_citizenship"); ("percentage_female",
        "percentage_female"); ("percentage_age_under_25",
        "percentage_age_under_25") ]) rows;
  Ok (Models models).

(** [/districts/residents/beneficiaries]. *)
Definition get_residents_beneficiaries_by_districts (rows : list row) : result returned :=
  let schema := schemas "BeneficiariesByDistrict" in
  models ← comprehension (call schema
      [ ("year", "year"); ("district_id", "district_id"); ("residents",
        "residents") ]) rows;
  Ok (Models models).

(** [/{district_id}/residents/beneficiaries]. *)
Definition get_residents_beneficiaries_by_district (rows : list row) : result returned :=
  let schema := schemas "BeneficiariesByDistrict" in
  models ← comprehension (call schema
      [ ("year", "year"); ("district_id", "district_id"); ("residents",
        "residents") ]) rows;
  Ok (Models models).

(** [/districts/residents/beneficiaries/inactive]. *)
Definition get_residents_beneficiaries_inactive_by_districts (rows : list row) : result returned :=
  let schema := schemas "InactiveBeneficiariesInHouseholdsByDistrict" in
  models ← comprehension (call schema
      [ ("year", "year"); ("district_id", "district_id"); ("residents",
        "residents") ]) rows;
  Ok (Models models).

(** [/{district_id}/residents/beneficiaries/inactive]. *)
Definition get_residents_beneficiaries_inactive_by_district (rows : list row) : result returned :=
  let schema := schemas "InactiveBeneficiariesInHouseholdsByDistrict" in
  models ← comprehension (call schema
      [ ("year", "year"); ("district_id", "district_id"); ("residents",
        "residents") ]) rows;
  Ok (Models models).

(** [/districts/residents/beneficiaries/characteristics]. *)
Definition get_residents_beneficiaries_by_characteristics_by_districts (rows : list row) : result returned :=
  let schema := schemas "BeneficiariesCharacteristicsByDistrict" in
  models ← comprehension (call schema
      [ ("year", "year"); ("district_id", "district_id");
        ("unemployability", "unemployability"); ("employability",
        "employability"); ("percentage_females", "percentage_females");
        ("percentage_single_parents", "percentage_single_parents");
        ("percentage_foreign_citizenship",
        "percentage_foreign_citizenship") ]) rows;
  Ok (Models models).

(** [/{district_id}/residents/beneficiaries/characteristics]. *)
Definition get_residents_beneficiaries_by_characteristics_by_district (rows : list row) : result returned :=
  let schema := schemas "BeneficiariesCharacteristicsByDistrict" in
  models ← comprehension (call schema
      [ ("year", "year"); ("district_id", "district_id");
        ("unemployability", "unemployability"); ("employability",
        "employability"); ("percentage_females", "percentage_females");
        ("percentage_single_parents", "percentage_single_parents");
        ("percentage_foreign_citizenship",
        "percentage_foreign_citizenship") ]) rows;
  Ok (Models models).

(** [/districts/residents/beneficiaries/age15tounder65]. *)
Definition get_residents_beneficiaries_age15tounder65_by_districts (rows : list row) : result returned :=
  let schema := schemas "BeneficiariesAge15ToUnder65ByDistrict" in
  models ← comprehension (call schema
      [ ("year", "year"); ("district_id", "district_id");
        ("percentage_of_total_residents",
        "percentage_of_total_residents"); ("employable_with_benefits",
        "employable_with_benefits"); ("unemployment_benefits",
        "unemployment_benefits"); ("basic_income", "basic_income");
        ("assisting_benefits", "assisting_benefits") ]) rows;
  Ok (Models models).

(** [/{district_id}/residents/beneficiaries/age15tounder65]. *)
Definition get_residents_beneficiaries_age15tounder65_by_district (rows : list row) : result returned :=
  let schema := schemas "BeneficiariesAge15ToUnder65ByDistrict" in
  models ← comprehension (call schema
      [ ("year", "year"); ("district_id", "district_id");
        ("percentage_of_total_residents",
        "percentage_of_total_residents"); ("employable_with_benefits",
        "employable_with_benefits"); ("unemployment_benefits",
        "unemployment_benefits"); ("basic_income", "basic_income");
        ("assisting_benefits", "assisting_benefits") ]) rows;
  Ok (Models models).

(** [/districts/residents/migration/background]. *)
Definition get_residents_migration_background_by_districts (rows : list row) : result returned :=
  let schema := schemas "MigrationBackgroundByDistrict" in
  models ← comprehension (call schema
      [ ("year", "year"); ("district_id", "district_id");
        ("foreign_citizenship", "foreign_citizenship");
        ("german_citizenship", "german_citizenship") ]) rows;
  Ok (Models models).

(** [/{district_id}/residents/migration/background]. *)
Definition get_residents_migration_background_by_district (rows : list row) : result returned :=
  let schema := schemas "MigrationBackgroundByDistrict" in
  models ← comprehension (call schema
      [ ("year", "year"); ("district_id", "district_id");
        ("foreign_citizenship", "foreign_citizenship");
        ("german_citizenship", "german_citizenship") ]) rows;
  Ok (Models models).

(** [/districts/residents/housing/assistance]. *)
Definition get_residents_housing_assistance_by_districts (rows : list row) : result returned :=
  let schema := schemas "HousingAssistanceCasesByDistrict" in
  models ← comprehension (call schema
      [ ("year", "year"); ("district_id", "district_id");
        ("general_consulting", "general_consulting");
        ("notices_of_rent_arrears", "notices_of_rent_arrears");
        ("termination_rent_arrears", "termination_rent_arrears");
        ("termination_for_conduct", "termination_for_conduct");
        ("action_for_eviction", "action_for_eviction");
        ("eviction_notice", "eviction_notice"); ("eviction_carried",
        "eviction_carried") ]) rows;
  Ok (Models models).

(** [/{district_id}/residents/housing/assistance]. *)
Definition get_residents_housing_assistance_by_district (rows : list row) : result returned :=
  let schema := schemas "HousingAssistanceCasesByDistrict" in
  models ← comprehension (call schema
      [ ("year", "year"); ("district_id", "district_id");
        ("general_consulting", "general_consulting");
        ("notices_of_rent_arrears", "notices_of_rent_arrears");
        ("termination_rent_arrears", "termination_rent_arrears");
        ("termination_for_conduct", "termination_for_conduct");
        ("action_for_eviction", "action_for_eviction");
        ("eviction_notice", "eviction_notice"); ("eviction_carried",
        "eviction_carried") ]) rows;
  Ok (Models models).

(** [/districts/residents/housing/benefit]. The source gives this handler the name of a
    later one, which replaces it in the module but not on the router. *)
Definition get_residents_housing_benefit_by_district' (rows : list row) : result returned :=
  let schema := schemas "HousingBenefitByDistrict" in
  models ← comprehension (call schema
      [ ("year", "year"); ("district_id", "district_id"); ("residents",
        "residents") ]) rows;
  Ok (Models models).

(** [/districts/residents/housing/benefit]. *)
Definition get_residents_housing_benefit_by_districts (rows : list row) : result returned :=
  let schema := schemas "HousingBenefitByDistrict" in
  models ← comprehension (call schema
      [ ("year", "year"); ("district_id", "district_id"); ("residents",
        "residents") ]) rows;
  Ok (Models models).

(** [/{district_id}/residents/housing/benefit]. *)
Definition get_residents_housing_benefit_by_district (rows : list row) : result returned :=
  let schema := schemas "HousingBenefitByDistrict" in
  models ← comprehension (call schema
      [ ("year", "year"); ("district_id", "district_id"); ("residents",
        "residents") ]) rows;
  Ok (Models models).

(** [/districts/residents/risk/homelessness]. *)
Definition get_residents_risk_homelessness_by_districts (rows : list row) : result returned :=
  let schema := schemas "HouseholdsAtRiskOfHomelessnessByDistricts" in
  models ← comprehension (call schema
      [ ("year", "year"); ("district_id", "district_id"); ("residents",
        "residents") ]) rows;
  Ok (Models models).

(** [/{district_id}/residents/risk/homelessness]. *)
Definition get_residents_risk_homelessness_by_district (rows : list row) : result returned :=
  let schema := schemas "HouseholdsAtRiskOfHomelessnessByDistrict" in
  models ← comprehension (call schema
      [ ("year", "year"); ("district_id", "district_id"); ("residents",
        "residents") ]) rows;
  Ok (Models models).

(** The handlers that answer with one entity out of a sequence of rows. *)
Definition singular_handlers : list (list row -> result returned) :=
  [ get_parcel_meta; get_biotop_meta; get_biotop_origin; get_monuments;
    get_accident_meta; get_accident_details_by_city; get_district_details ].

(** The handlers that answer with every row. *)
Definition collection_handlers : list (list row -> result returned) :=
  [ get_demographics_meta; get_districts; get_household_types;
    get_residents_by_age_groups; get_residents_non_germans;
    get_residents_debt_counseling; get_residents_education_support;
    get_residents_by_districts; get_residents_by_district;
    get_residents_births_by_districts; get_residents_births_by_district;
    get_residents_employed_by_districts;
    get_residents_employed_by_district;
    get_residents_ageratio_by_districts;
    get_residents_ageratio_by_district;
    get_residents_basicbenefits_by_districts;
    get_residents_basicbenefits_by_district;
    get_residents_ageunder18_by_districts;
    get_residents_ageunder18_by_district;
    get_residents_age18tounder65_by_districts;
    get_residents_age18tounder65_by_district;
    get_residents_age65andabove_by_districts;
    get_residents_age65andabove_by_district;
    get_residents_agegroups_by_districts;
    get_residents_agegroups_by_district;
    get_residents_unemployed_by_districts;
    get_residents_unemployed_by_district;
    get_residents_unemployed_by_categories_by_districts;
    get_residents_unemployed_by_categories_by_district;
    get_residents_beneficiaries_by_districts;
    get_residents_beneficiaries_by_district;
    get_residents_beneficiaries_inactive_by_districts;
    get_residents_beneficiaries_inactive_by_district;
    get_residents_beneficiaries_by_characteristics_by_districts;
    get_residents_beneficiaries_by_characteristics_by_district;
    get_residents_beneficiaries_age15tounder65_by_districts;
    get_residents_beneficiaries_age15tounder65_by_district;
    get_residents_migration_background_by_districts;
    get_residents_migration_background_by_district;
    get_residents_housing_assistance_by_districts;
    get_residents_housing_assistance_by_district;
    get_residents_housing_benefit_by_district';
    get_residents_housing_benefit_by_districts;
    get_residents_housing_benefit_by_district;
    get_residents_risk_homelessness_by_districts;
    get_residents_risk_homelessness_by_district ].

End Schemas.

End Main.

(** ** The startup hook, [init_schemas] in [src/main.py] *)

Module Startup.

(** What the hook does to the store, table by table. *)
Inductive ddl : Type :=
| DropTable (t : string)
| CreateTable (t : string).

(** The store as the hook sees it: the tables by name, each with its rows,
    and the statements executed on the connection so far. *)
Record store := {
  tables : gmap string (list row);
  journal : list ddl
}.

Definition drop_table (st : store) (t : string) : store :=
  match tables st !! t with
  | Some _ => {| tables := delete t (tables st); journal := journal st ++ [DropTable t] |}
  | None => st
  end.

Definition create_table (st : store) (t : string) : store :=
  match tables st !! t with
  | Some _ => st
  | None => {| tables := <[t := []]> (tables st); journal := journal st ++ [CreateTable t] |}
  end.

(** [Base.metadata.drop_all]: every declared table that exists is dropped,
    in the reverse of the creation order. [metadata] lists the declared
    tables in creation order. *)
Definition drop_all (metadata : list string) (st : store) : store :=
  foldl drop_table st (rev metadata).

(** [Base.metadata.create_all]: every declared table that does not exist is
    created, empty. *)
Definition create_all (metadata : list string) (st : store) : store :=
  foldl create_table st metadata.

(** [init_schemas]: both calls on one connection, one after the other. *)
Definition init_schemas (metadata : list string) (st : store) : store :=
  let conn := st in
  let conn := drop_all metadata conn in
  let conn := create_all metadata conn in
  conn.

(** The same tables on a connection that has already executed [before]. *)
Definition after (before : list ddl) (st : store) : store :=
  {| tables := tables st; journal := before ++ journal st |}.

(** What can be observed of a process: statements on the store and
    responses to clients. *)
Inductive event : Type :=
| Statement (d : ddl)
| Served (r : Main.Response).

(** A process of the application: the hook registered with
    [@app.on_event('startup')] runs to its end, then the requests are
    answered in turn. A request is given as what its handler returns. *)
Definition process (metadata : list string) (st : store)
    (requests : list (result Main.returned)) : list event :=
  let started := init_schemas metadata {| tables := tables st; journal := [] |} in
  (Statement <$> journal started) ++ (Served <$> (Main.fastapi <$> requests)).

End Startup.

(** ** The routes, [src/main.py] *)

Module Routing.

(** A path pattern, cut at the slashes: a literal piece, a parameter
    [{name}], which takes one non-empty piece, or the rest of the path
    under a mount. The path [/] is the one empty piece. *)
Inductive segment : Type :=
| Lit (s : string)
| Param (name : string)
| Rest.

(** A route: its pattern and the name of the function it calls. *)
Record route := {
  route_path : list segment;
  endpoint : string
}.

(** [@router.get(path)] over [def name]. *)
Definition get (path : list segment) (name : string) : route :=
  {| route_path := path; endpoint := name |}.

Record APIRouter := {
  prefix : list segment;
  routes : list route
}.

(** [app.include_router(router)]: the routes of the router, in the order
    of their decorators, each under the prefix. *)
Definition include_router (r : APIRouter) : list route :=
  (fun rt => get (prefix r ++ route_path rt) (endpoint rt)) <$> routes r.

Definition router1 : APIRouter :=
  {| prefix := [Lit "demographics"; Lit "v1"];
     routes := [
    get [Lit "meta"] "get_demographics_meta";
    get [Lit "details"] "get_district_details";
    get [Lit "districts"; Lit ""] "get_districts";
    get [Param "district_id"] "get_district";
    get [Lit "household"; Lit "types"] "get_household_types";
    get [Lit "residents"; Lit "agegroups"] "get_residents_by_age_groups";
    get [Lit "residents"; Lit "nongermans"] "get_residents_non_germans";
    get [Lit "residents"; Lit "debtcounseling"]
      "get_residents_debt_counseling";
    get [Lit "residents"; Lit "education"; Lit "support"]
      "get_residents_education_support";
    get [Lit "districts"; Lit "residents"] "get_residents_by_districts";
    get [Param "district_id"; Lit "residents"] "get_residents_by_district";
    get [Lit "districts"; Lit "residents"; Lit "births"]
      "get_residents_births_by_districts";
    get [Param "district_id"; Lit "residents"; Lit "births"]
      "get_residents_births_by_district";
    get [Lit "districts"; Lit "residents"; Lit "employed"]
      "get_residents_employed_by_districts";
    get [Param "district_id"; Lit "residents"; Lit "employed"]
      "get_residents_employed_by_district";
    get [Lit "districts"; Lit "residents"; Lit "ageratio"]
      "get_residents_ageratio_by_districts";
    get [Param "district_id"; Lit "residents"; Lit "ageratio"]
      "get_residents_ageratio_by_district";
    get [Lit "districts"; Lit "residents"; Lit "basicbenefits"]
      "get_residents_basicbenefits_by_districts";
    get [Param "district_id"; Lit "residents"; Lit "basicbenefits"]
      "get_residents_basicbenefits_by_district";
    get [Lit "districts"; Lit "residents"; Lit "ageunder18"]
      "get_residents_ageunder18_by_districts";
    get [Param "district_id"; Lit "residents"; Lit "ageunder18"]
      "get_residents_ageunder18_by_district";
    get [Lit "districts"; Lit "residents"; Lit "age18tounder65"]
      "get_residents_age18tounder65_by_districts";
    get [Param "district_id"; Lit "residents"; Lit "age18tounder65"]
      "get_residents_age18tounder65_by_district";
    get [Lit "districts"; Lit "residents"; Lit "age65andabove"]
      "get_residents_age65andabove_by_districts";
    get [Param "district_id"; Lit "residents"; Lit "age65andabove"]
      "get_residents_age65andabove_by_district";
    get [Lit "districts"; Lit "residents"; Lit "agegroups"]
      "get_residents_agegroups_by_districts";
    get [Param "district_id"; Lit "residents"; Lit "agegroups"]
      "get_residents_agegroups_by_district";
    get [Lit "districts"; Lit "residents"; Lit "unemployed"]
      "get_residents_unemployed_by_districts";
    get [Param "district_id"; Lit "residents"; Lit "unemployed"]
      "get_residents_unemployed_by_district";
    get [Lit "districts"; Lit "residents"; Lit "unemployed"; Lit "categorized"]
      "get_residents_unemployed_by_categories_by_districts";
    get [Param "district_id"; Lit "residents"; Lit "unemployed"; Lit "categorized"]
      "get_residents_unemployed_by_categories_by_district";
    get [Lit "districts"; Lit "residents"; Lit "beneficiaries"]
      "get_residents_beneficiaries_by_districts";
    get [Param "district_id"; Lit "residents"; Lit "beneficiaries"]
      "get_residents_beneficiaries_by_district";
    get [Lit "districts"; Lit "residents"; Lit "beneficiaries"; Lit "inactive"]
      "get_residents_beneficiaries_inactive_by_districts";
    get [Param "district_id"; Lit "residents"; Lit "beneficiaries"; Lit "inactive"]
      "get_residents_beneficiaries_inactive_by_district";
    get [Lit "districts"; Lit "residents"; Lit "beneficiaries"; Lit "characteristics"]
      "get_residents_beneficiaries_by_characteristics_by_districts";
    get [Param "district_id"; Lit "residents"; Lit "beneficiaries"; Lit "characteristics"]
      "get_residents_beneficiaries_by_characteristics_by_district";
    get [Lit "districts"; Lit "residents"; Lit "beneficiaries"; Lit "age15tounder65"]
      "get_residents_beneficiaries_age15tounder65_by_districts";
    get [Param "district_id"; Lit "residents"; Lit "beneficiaries"; Lit "age15tounder65"]
      "get_residents_beneficiaries_age15tounder65_by_district";
    get [Lit "districts"; Lit "residents"; Lit "migration"; Lit "background"]
      "get_residents_migration_background_by_districts";
    get [Param "district_id"; Lit "residents"; Lit "migration"; Lit "background"]
      "get_residents_migration_background_by_district";
    get [Lit "districts"; Lit "residents"; Lit "housing"; Lit "assistance"]
      "get_residents_housing_assistance_by_districts";
    get [Param "district_id"; Lit "residents"; Lit "housing"; Lit "assistance"]
      "get_residents_housing_assistance_by_district";
    get [Lit "districts"; Lit "residents"; Lit "housing"; Lit "benefit"]
      "get_residents_housing_benefit_by_district'";
    get [Lit "districts"; Lit "residents"; Lit "housing"; Lit "benefit"]
      "get_residents_housing_benefit_by_districts";
    get [Param "district_id"; Lit "residents"; Lit "housing"; Lit "benefit"]
      "get_residents_housing_benefit_by_district";
    get [Lit "districts"; Lit "residents"; Lit "risk"; Lit "homelessness"]
      "get_residents_risk_homelessness_by_districts";
    get [Param "district_id"; Lit "residents"; Lit "risk"; Lit "homelessness"]
      "get_residents_risk_homelessness_by_district" ] |}.

Definition router2 : APIRouter :=
  {| prefix := [Lit "accidents"; Lit "v1"];
     routes := [
    get [Lit "meta"] "get_accident_meta";
    get [Lit "details"] "get_accident_details_by_city" ] |}.

Definition router3 : APIRouter :=
  {| prefix := [Lit "monuments"; Lit "v1"];
     routes := [
    get [Lit "details"] "get_monuments" ] |}.

Definition router4 : APIRouter :=
  {| prefix := [Lit "biotope"; Lit "v1"];
     routes := [
    get [Lit "point"] "get_biotop_meta";
    get [Lit "origin"] "get_biotop_origin" ] |}.

Definition router5 : APIRouter :=
  {| prefix := [Lit "alkis"; Lit "v1"];
     routes := [
    get [Lit "parcel"] "get_parcel_meta" ] |}.

(** The routes of the application in the order in which they are added:
    the schema route the application has from its creation, the mount of
    the static files, the two routes of the application itself and the
    routers in the order of the [include_router] calls. *)
Definition app_routes : list route :=
  [ get [Lit "openapi.json"] "openapi";
    get [Lit "static"; Rest] "static";
    get [Lit ""] "home_redirect";
    get [Lit "docs"] "swagger_ui_html" ]
  ++ include_router router5 ++ include_router router4 ++ include_router router1 ++ include_router router2 ++ include_router router3.

(** Whether a pattern takes a request path, given cut at the slashes. *)
Fixpoint matches (pattern : list segment) (path : list string) : bool :=
  match pattern, path with
  | [], [] => true
  | Rest :: _, _ :: _ => true
  | Lit l :: pattern', s :: path' => String.eqb l s && matches pattern' path'
  | Param _ :: pattern', s :: path' =>
      negb (String.eqb s "") && matches pattern' path'
  | _, _ => false
  end.

(** The function a GET request is dispatched to: that of the first route,
    in the order of the table, whose pattern takes the path. *)
Fixpoint resolve (table : list route) (path : list string) : option string :=
  match table with
  | [] => None
  | rt :: table' =>
      if matches (route_path rt) path then Some (endpoint rt)
      else resolve table' path
  end.

(** A path a pattern takes: [id] in the place of every parameter. *)
Definition instantiate (id : string) (pattern : list segment) : list string :=
  (fun sg => match sg with Lit l => l | Param _ => id | Rest => "" end) <$> pattern.

(** The routes under a district id: a parameter in the first place after
    the prefix and something after it. *)
Definition per_district (rt : route) : bool :=
  match route_path rt with
  | _ :: _ :: Param _ :: _ :: _ => true
  | _ => false
  end.

End Routing.

(** ** Deciding which route takes the paths of a pattern *)

Module RoutingCheck.

Import Routing.

#[global] Instance segment_eq_dec : EqDecision segment.
Proof. solve_decision. Defined.

#[global] Instance route_eq_dec : EqDecision route.
Proof. solve_decision. Defined.

(** Whether [pattern] may take a path of [target] in which every parameter
    is one and the same non-empty piece outside [excluded]. *)
Fixpoint may_take (excluded : list string) (pattern target : list segment) : bool :=
  match pattern, target with
  | [], [] => true
  | Rest :: _, _ :: _ => true
  | Lit l :: pattern', Lit l' :: target' =>
      String.eqb l l' && may_take excluded pattern' target'
  | Lit l :: pattern', Param _ :: target' =>
      negb (bool_decide (l = "" ∨ l ∈ excluded)) && may_take excluded pattern' target'
  | Lit l :: pattern', Rest :: target' =>
      String.eqb l "" && may_take excluded pattern' target'
  | Param _ :: pattern', Lit l' :: target' =>
      negb (String.eqb l' "") && may_take excluded pattern' target'
  | Param _ :: pattern', Param _ :: target' => may_take excluded pattern' target'
  | _, _ => false
  end.

(** Whether [rt] is in the table with no route before it that may take
    its paths. *)
Fixpoint reached (excluded : list string) (table : list route) (rt : route) : bool :=
  match table with
  | [] => false
  | r :: table' =>
      if bool_decide (r = rt) then true
      else negb (may_take excluded (route_path r) (route_path rt))
           && reached excluded table' rt
  end.

End RoutingCheck.

(** ** A small store for the examples *)

Module Sample.

Import Monument.

(** Points with integer coordinates stand in for the stored geometries. *)
Definition point : Type := Z * Z.

Definition point_geojson (g : point) (maxdecimaldigits : Z) : value :=
  VDict [("type", VStr "Point");
         ("coordinates", VList [VInt (fst g); VInt (snd g)]);
         ("maxdecimaldigits", VInt maxdecimaldigits)].

Definition monument (id : Z) (bigint : Is_true (in_int64 id)) (designation : string)
    : sh_monuments_row point :=
  {| m_id := id;
     m_id_bigint := bigint;
     m_wkb_geometry := (10, 54);
     m_object_id := VInt (1000 + id);
     m_street := VStr "Markt";
     m_housenumber := VStr "1";
     m_postcode := VStr "24937";
     m_city := VStr "Flensburg";
     m_image_url := VNone;
     m_designation := VStr designation;
     m_description := VNone;
     m_monument_type := VStr "Bauliche Anlage" |}.

Definition rathaus : sh_monuments_row point := monument 1 I "Rathaus".
Definition speicher : sh_monuments_row point := monument 2 I "Speicher".

Definition reasons : list sh_monument_reason_row :=
  [ {| mr_id := 10; mr_label := Some "Fire damage" |};
    {| mr_id := 11; mr_label := Some "Historic facade" |} ].

(** Monument 1 has two reasons, monument 2 has none. *)
Definition store : snapshot point :=
  {| sh_monuments := [rathaus; speicher];
     sh_monument_x_reason :=
       [ {| mxr_monument_id := 1; mxr_reason_id := 10 |};
         {| mxr_monument_id := 1; mxr_reason_id := 11 |} ];
     sh_monument_reason := reasons |}.

(** The same rows, with the relation table stored in the other order. *)
Definition store_reordered : snapshot point :=
  {| sh_monuments := sh_monuments store;
     sh_monument_x_reason :=
       [ {| mxr_monument_id := 1; mxr_reason_id := 11 |};
         {| mxr_monument_id := 1; mxr_reason_id := 10 |} ];
     sh_monument_reason := reasons |}.

(** A store that knows no other statement. *)
Definition no_other_statement (sql : string) (params : gmap string (option value))
    (s : snapshot point) : result (list row) :=
  Raise DBAPIError.

(** Schema classes that coerce nothing, and no class but [District]. *)
Definition no_coercion (t : Main.field_type) (v : value) : option value := None.

Definition no_other_class (name : string) : Main.model_class := [].

End Sample.

(** ** More stores for the examples *)

Module Stores.

Import Monument Sample.

(** The store with the monuments in the other order and a relation row of
    another monument between those of monument 1. *)
Definition store_interleaved : snapshot point :=
  {| sh_monuments := [speicher; rathaus];
     sh_monument_x_reason :=
       [ {| mxr_monument_id := 1; mxr_reason_id := 10 |};
         {| mxr_monument_id := 2; mxr_reason_id := 11 |};
         {| mxr_monument_id := 1; mxr_reason_id := 11 |} ];
     sh_monument_reason := reasons |}.

(** The store with the label table in the other order. *)
Definition store_labels_reordered : snapshot point :=
  {| sh_monuments := sh_monuments store;
     sh_monument_x_reason := sh_monument_x_reason store;
     sh_monument_reason :=
       [ {| mr_id := 11; mr_label := Some "Historic facade" |};
         {| mr_id := 10; mr_label := Some "Fire damage" |} ] |}.

(** The store with a relation row that names no label. *)
Definition store_dangling : snapshot point :=
  {| sh_monuments := sh_monuments store;
     sh_monument_x_reason :=
       [ {| mxr_monument_id := 1; mxr_reason_id := 10 |};
         {| mxr_monument_id := 1; mxr_reason_id := 99 |};
         {| mxr_monument_id := 1; mxr_reason_id := 11 |} ];
     sh_monument_reason := reasons |}.

End Stores.

(** ** Rows and answers *)

(** The row has every attribute that [schema(f1=r.a1, ..., fn=r.an)]
    reads. *)
Definition has_attrs (kwargs : list (string * string)) (r : row) : Prop :=
  Forall (fun fa => is_Some (assoc (snd fa) r)) kwargs.

#[global] Instance has_attrs_dec kwargs r : Decision (has_attrs kwargs r).
Proof. unfold has_attrs. apply _. Defined.

(** The two answers that are not a success. *)
Definition not_found : Main.Response :=
  {| Main.status_code := 404;
     Main.content := Main.JsonBody (VDict [("detail", VStr "Not found")]) |}.


(** * Properties *)

(** ** Handlers *)

Section HandlerFacts.

Import Main.

Context (coerce : field_type → value → option value).
Context (other_classes : string → model_class).

Implicit Types (rows : list row) (r : row).

Lemma getitem_nil {A} (i : nat) : getitem (@nil A) i = Raise IndexError.
Proof. by destruct i. Qed.

Lemma getitem_first {A} (a : A) (l : list A) : getitem (a :: l) 0 = Ok a.
Proof. done. Qed.

(** The three guarded lookups and the district lookup answer 404 with the
    detail [Not found] when there is nothing to return. *)
Lemma guarded_lookups_not_found :
  let not_found :=
    {| status_code := 404; content := JsonBody (VDict [("detail", VStr "Not found")]) |} in
  fastapi (get_parcel_meta []) = not_found
  ∧ fastapi (get_biotop_meta []) = not_found
  ∧ fastapi (get_biotop_origin []) = not_found
  ∧ fastapi (get_district coerce other_classes None) = not_found.
Proof. by repeat split. Qed.

(** C1, at the failing input. The lookups of monument details, accident
    meta, accident details and district details index the encoded rows
    without a guard: with zero rows the [IndexError] escapes the handler
    and the client receives 500, not 404. *)
Theorem unguarded_lookups_zero_rows :
  Forall (fun h => h [] = Raise IndexError
                   ∧ fastapi (h []) =
                     {| status_code := 500; content := TextBody "Internal Server Error" |})
    [get_monuments; get_accident_meta; get_accident_details_by_city;
     get_district_details].
Proof. repeat constructor. Qed.

(** C2, amended. When the district row has id 3 and name Altstadt, the
    district-by-id endpoint answers 200 with a JSON array holding the one
    object [{"district_id": 3, "district_name": "Altstadt"}]. *)
Theorem get_district_altstadt r :
  assoc "id" r = Some (VInt 3) →
  assoc "name" r = Some (VStr "Altstadt") →
  fastapi (get_district coerce other_classes (Some r))
  = {| status_code := 200;
       content := JsonBody (VList [VDict [("district_id", VInt 3);
                                          ("district_name", VStr "Altstadt")]]) |}.
Proof.
  intros Hid Hname. unfold get_district, getattr_opt, getattr.
  by rewrite Hid, Hname.
Qed.

(** C6. Every handler that answers with one entity out of a sequence of
    rows answers, for a non-empty sequence, 200 with the mapping of the
    first row; the rows after it have no effect on the response. *)
Theorem singular_first_row :
  Forall (fun h => ∀ r rest,
            fastapi (h (r :: rest)) = JSONResponse (VDict r)
            ∧ h (r :: rest) = h [r])
    singular_handlers.
Proof. repeat constructor. Qed.

(** C7. Every collection handler answers zero rows with 200 and the empty
    JSON array. *)
Theorem collection_zero_rows :
  Forall (fun h => fastapi (h []) = {| status_code := 200; content := JsonBody (VList []) |})
    (collection_handlers coerce other_classes).
Proof. repeat constructor. Qed.

End HandlerFacts.

Section HandlerExamples.

Import Main Sample.

(** C2, as stated, fails: for district 3 named Altstadt the body is not the
    JSON object itself. *)
Lemma district_body_is_not_an_object :
  fastapi (get_district no_coercion no_other_class
             (Some [("id", VInt 3); ("name", VStr "Altstadt")]))
  ≠ {| status_code := 200;
       content := JsonBody (VDict [("district_id", VInt 3);
                                   ("district_name", VStr "Altstadt")]) |}.
Proof. discriminate. Qed.

Lemma get_district_altstadt_witness :
  fastapi (get_district no_coercion no_other_class
             (Some [("id", VInt 3); ("name", VStr "Altstadt")]))
  = {| status_code := 200;
       content := JsonBody (VList [VDict [("district_id", VInt 3);
                                          ("district_name", VStr "Altstadt")]]) |}.
Proof. apply get_district_altstadt; reflexivity. Defined.

End HandlerExamples.

(** ** The monument query *)

Section MonumentFacts.

Import Monument.

Context {geometry : Type} (ST_AsGeoJSON : geometry → Z → value).
Context (other_statement :
           string → gmap string (option value) → snapshot geometry → result (list row)).

Implicit Types (s : snapshot geometry) (m : sh_monuments_row geometry).
Implicit Types (q k : Z) (ks : list Z) (p : plan).
Implicit Types (mxr : list sh_monument_x_reason_row) (mr : list sh_monument_reason_row).

Lemma group_keys_elem ks k : k ∈ group_keys ks ↔ k ∈ ks.
Proof.
  induction ks as [|k0 ks IH]; simpl; [done|].
  rewrite !elem_of_cons, list_elem_of_filter, IH.
  destruct (decide (k = k0)); tauto.
Qed.

Lemma group_keys_NoDup ks : NoDup (group_keys ks).
Proof.
  induction ks as [|k0 ks IH]; simpl; [constructor|].
  constructor.
  - rewrite list_elem_of_filter. tauto.
  - by apply NoDup_filter.
Qed.

Lemma filter_key_NoDup (a : Z) ks :
  NoDup ks → filter (fun k => a = k) ks = if decide (a ∈ ks) then [a] else [].
Proof.
  induction 1 as [|k ks Hk Hnd IH]; [done|].
  rewrite filter_cons, IH.
  destruct (decide (a = k)) as [->|Hne].
  - rewrite decide_False by done. rewrite decide_True by left. done.
  - destruct (decide (a ∈ ks)) as [Hin|Hnin].
    + rewrite decide_True by (by right). done.
    + rewrite decide_False; [done|]. rewrite elem_of_cons. tauto.
Qed.

Lemma one_key_labels (a k : Z) (rs : list sh_monument_reason_row) :
  snd <$> filter (fun jr : Z * option string => fst jr = k)
            (r ← rs; [(a, mr_label r)])
  = if decide (a = k) then mr_label <$> rs else [].
Proof.
  destruct (decide (a = k)) as [Heq|Hne];
    induction rs as [|r rs IH]; try done;
    rewrite bind_cons; simpl; rewrite filter_cons; simpl.
  - rewrite decide_True by done. by rewrite fmap_cons, IH.
  - by rewrite decide_False.
Qed.

(** With the relation table outside, the group of [k] receives the
    listing. *)
Lemma group_labels mxr mr k :
  snd <$> filter (fun jr => fst jr = k) (nested_loop_mxr_outer mxr mr)
  = label_listing mxr mr k.
Proof.
  unfold label_listing, nested_loop_mxr_outer.
  induction mxr as [|x mxr IH]; [done|].
  rewrite bind_cons, filter_app, fmap_app, IH, filter_cons, one_key_labels.
  destruct (decide (mxr_monument_id x = k)); [|done].
  by rewrite bind_cons.
Qed.

(** Whatever the plan, the group of [k] receives the labels of [k], in
    some order. *)
Lemma delivered_labels_perm p mxr mr k :
  delivered_labels p mxr mr k ≡ₚ label_listing mxr mr k.
Proof.
  unfold delivered_labels. by rewrite join_rows_perm, group_labels.
Qed.

Lemma delivered_labels_nil p mxr mr k :
  k ∉ fst <$> join_rows p mxr mr → delivered_labels p mxr mr k = [].
Proof.
  intros Hk. unfold delivered_labels.
  set (joined := join_rows p mxr mr) in *.
  induction joined as [|jr joined IH]; [done|].
  rewrite fmap_cons, not_elem_of_cons in Hk. destruct Hk as [Hne Hk].
  rewrite filter_cons, decide_False by done. by apply IH.
Qed.

(** The join to the CTE gives every monument exactly one row: its group, or
    NULL when it has none. *)
Lemma left_join_row_one p s m :
  left_join_row ST_AsGeoJSON
    (monument_reasons p (sh_monument_x_reason s) (sh_monument_reason s)) m
  = [row_of ST_AsGeoJSON p s m].
Proof.
  unfold left_join_row, monument_reasons, row_of.
  set (mxr := sh_monument_x_reason s). set (mr := sh_monument_reason s).
  set (agg := fun k => (k, string_agg (delivered_labels p mxr mr k) ", ")).
  set (keys := group_keys (fst <$> join_rows p mxr mr)).
  assert (Hf : filter (fun r : Z * option string => m_id m = fst r) (agg <$> keys)
               = agg <$> filter (fun k => m_id m = k) keys).
  { induction keys as [|k ks IH]; [done|].
    rewrite fmap_cons, !filter_cons. simpl.
    destruct (decide (m_id m = k)); by rewrite IH. }
  rewrite Hf, filter_key_NoDup by apply group_keys_NoDup.
  destruct (decide (m_id m ∈ keys)) as [Hin|Hnin]; simpl; [done|].
  unfold keys in Hnin. rewrite group_keys_elem in Hnin.
  by rewrite delivered_labels_nil.
Qed.

(** The statement returns, in some order, one row per stored monument with
    the key [q]. *)
Lemma monument_query_rows p s q :
  monument_query ST_AsGeoJSON p s q
  ≡ₚ row_of ST_AsGeoJSON p s <$> filter (fun m => m_id m = q) (sh_monuments s).
Proof.
  unfold monument_query. rewrite emit_rows_perm.
  induction (filter _ (sh_monuments s)) as [|m ms IH]; [done|].
  rewrite bind_cons, fmap_cons, left_join_row_one. simpl. by rewrite IH.
Qed.

Lemma text_monument_sql :
  tc_bindparams (text monument_sql) = ({["q" := None]} : gmap string (option value)).
Proof. by vm_compute. Qed.

(** Binding leaves the text alone and puts the value in the parameter
    map. *)
Lemma bindparams_monument_sql (object_id : value) :
  bindparams (text monument_sql) "q" object_id
  = Ok {| tc_text := monument_sql; tc_bindparams := {["q" := Some object_id]} |}.
Proof.
  unfold bindparams. rewrite text_monument_sql, lookup_singleton_eq.
  by rewrite insert_singleton_eq.
Qed.

(** The function hands the store that statement. *)
Lemma get_monument_by_object_id_sends p s (object_id : value) :
  get_monument_by_object_id ST_AsGeoJSON other_statement p s object_id
  = session_execute ST_AsGeoJSON other_statement p s
      {| tc_text := monument_sql; tc_bindparams := {["q" := Some object_id]} |}.
Proof.
  unfold get_monument_by_object_id. rewrite bindparams_monument_sql. simpl.
  destruct (session_execute _ _ _ _ _) as [rows|e]; simpl; [|done].
  by rewrite list_fmap_id.
Qed.

Lemma get_monument_by_object_id_cases p s (object_id : value) :
  get_monument_by_object_id ST_AsGeoJSON other_statement p s object_id
  = match object_id with
    | VInt q =>
        if in_int64 q then Ok (monument_query ST_AsGeoJSON p s q)
        else Raise DBAPIError
    | VNone => Ok []
    | _ => Raise DBAPIError
    end.
Proof.
  rewrite get_monument_by_object_id_sends. unfold session_execute.
  cbn [tc_text tc_bindparams].
  rewrite bool_decide_eq_true_2 by done. rewrite lookup_singleton_eq.
  by destruct object_id.
Qed.

(** The function returns what the statement selects for a 64-bit key. *)
Lemma get_monument_by_object_id_int p s q :
  in_int64 q = true →
  get_monument_by_object_id ST_AsGeoJSON other_statement p s (VInt q)
  = Ok (monument_query ST_AsGeoJSON p s q).
Proof. intros Hq. by rewrite get_monument_by_object_id_cases, Hq. Qed.






(** C8. In every row the function returns, the [geojson] field is the
    store's GeoJSON serialisation of the monument's geometry with 15
    decimal digits. *)
Theorem geojson_fifteen_digits p s (object_id : value) (rows : list row) (r : row) :
  get_monument_by_object_id ST_AsGeoJSON other_statement p s object_id = Ok rows →
  r ∈ rows →
  ∃ m, m ∈ sh_monuments s
       ∧ assoc "geojson" r = Some (ST_AsGeoJSON (m_wkb_geometry m) 15).
Proof.
  intros Hrows Hr. rewrite get_monument_by_object_id_cases in Hrows.
  destruct object_id as [| |q| | |]; try discriminate.
  - injection Hrows as <-. by apply elem_of_nil in Hr.
  - destruct (in_int64 q); [|discriminate]. injection Hrows as <-.
    rewrite monument_query_rows in Hr.
    apply list_elem_of_fmap in Hr as (m & -> & Hm).
    apply list_elem_of_filter in Hm as [_ Hm]. by exists m.
Qed.

(** C10. A monument with the looked-up key and no row in the relation
    table is returned, with [monument_reason] present and null. *)
Theorem monument_without_reasons p s q m :
  m ∈ sh_monuments s →
  m_id m = q →
  (∀ x, x ∈ sh_monument_x_reason s → mxr_monument_id x ≠ q) →
  ∃ rows r,
    get_monument_by_object_id ST_AsGeoJSON other_statement p s (VInt q) = Ok rows
    ∧ r ∈ rows
    ∧ r = select_list ST_AsGeoJSON m None
    ∧ assoc "monument_reason" r = Some VNone.
Proof.
  intros Hm Hq Hnone.
  exists (monument_query ST_AsGeoJSON p s q), (select_list ST_AsGeoJSON m None).
  split.
  { apply get_monument_by_object_id_int. subst q.
    apply Is_true_true, m_id_bigint. }
  split; [|done].
  rewrite monument_query_rows. apply list_elem_of_fmap. exists m. split.
  - assert (Hnil : delivered_labels p (sh_monument_x_reason s) (sh_monument_reason s)
                     (m_id m) = []); [|unfold row_of; by rewrite Hnil].
    apply Permutation_nil_r. rewrite delivered_labels_perm.
    unfold label_listing. rewrite Hq.
    induction (sh_monument_x_reason s) as [|x mxr IH]; [done|].
    rewrite filter_cons, decide_False by (apply Hnone; left).
    apply IH. intros x' Hx'. apply Hnone. by right.
  - by apply list_elem_of_filter.
Qed.

(** C3, amended. With the same monuments and labels, whatever the order in
    which the rows of [sh_monument_x_reason] are stored and whatever the
    plans of the two executions, both return, in some order, one row for
    each monument with the key, with the same values in every column but
    [monument_reason]; each monument aggregates the same labels, and has
    a null [monument_reason] in the same cases. The order of the labels in
    the string is not determined. *)
Theorem relation_order p p' s s' q :
  sh_monuments s' = sh_monuments s →
  sh_monument_reason s' = sh_monument_reason s →
  sh_monument_x_reason s' ≡ₚ sh_monument_x_reason s →
  let ms := filter (fun m => m_id m = q) (sh_monuments s) in
  monument_query ST_AsGeoJSON p s q ≡ₚ row_of ST_AsGeoJSON p s <$> ms
  ∧ monument_query ST_AsGeoJSON p' s' q ≡ₚ row_of ST_AsGeoJSON p' s' <$> ms
  ∧ ∀ k,
      delivered_labels p' (sh_monument_x_reason s') (sh_monument_reason s') k
      ≡ₚ delivered_labels p (sh_monument_x_reason s) (sh_monument_reason s) k
      ∧ (string_agg
           (delivered_labels p' (sh_monument_x_reason s') (sh_monument_reason s') k)
           ", " = None
         ↔ string_agg
             (delivered_labels p (sh_monument_x_reason s) (sh_monument_reason s) k)
             ", " = None).
Proof.
  intros Hms Hmr Hmxr ms. subst ms.
  split; [apply monument_query_rows|].
  split; [by rewrite monument_query_rows, Hms|].
  intros k.
  assert (Hperm :
            delivered_labels p' (sh_monument_x_reason s') (sh_monument_reason s') k
            ≡ₚ delivered_labels p (sh_monument_x_reason s) (sh_monument_reason s) k).
  { rewrite !delivered_labels_perm. unfold label_listing. by rewrite Hmr, Hmxr. }
  split; [done|].
  assert (Hnull : ∀ vals, string_agg vals ", " = None ↔ omap id vals = []).
  { intros vals. unfold string_agg. by destruct (omap id vals). }
  rewrite !Hnull.
  set (d := delivered_labels p _ _ k) in *.
  set (d' := delivered_labels p' _ _ k) in *.
  assert (Homap : omap id d' ≡ₚ omap id d) by (by rewrite Hperm).
  split; intros Hnil; rewrite Hnil in Homap.
  - by apply Permutation_nil_l in Homap.
  - by apply Permutation_nil_r in Homap.
Qed.

End MonumentFacts.

Section MonumentExamples.

Import Monument Sample.

(** C3, as stated, fails: on one and the same snapshot, the execution with
    the relation table outside and the execution with the label table
    outside return two different strings for monument 1. *)
Lemma executions_differ :
  assoc "monument_reason"
    <$> monument_query point_geojson relation_table_outside store_reordered 1
  = [Some (VStr "Historic facade, Fire damage")]
  ∧ assoc "monument_reason"
      <$> monument_query point_geojson label_table_outside store_reordered 1
    = [Some (VStr "Fire damage, Historic facade")]
  ∧ get_monument_by_object_id point_geojson no_other_statement
      relation_table_outside store_reordered (VInt 1)
    ≠ get_monument_by_object_id point_geojson no_other_statement
        label_table_outside store_reordered (VInt 1).
Proof.
  split; [by vm_compute|]. split; [by vm_compute|].
  rewrite !get_monument_by_object_id_int by done. vm_compute. discriminate.
Qed.

Lemma relation_order_witness :
  let ms := filter (fun m => m_id m = 1) (sh_monuments store) in
  monument_query point_geojson relation_table_outside store 1
  ≡ₚ row_of point_geojson relation_table_outside store <$> ms
  ∧ monument_query point_geojson label_table_outside store_reordered 1
    ≡ₚ row_of point_geojson label_table_outside store_reordered <$> ms
  ∧ ∀ k,
      delivered_labels label_table_outside (sh_monument_x_reason store_reordered)
        (sh_monument_reason store_reordered) k
      ≡ₚ delivered_labels relation_table_outside (sh_monument_x_reason store)
           (sh_monument_reason store) k
      ∧ (string_agg
           (delivered_labels label_table_outside
              (sh_monument_x_reason store_reordered)
              (sh_monument_reason store_reordered) k) ", " = None
         ↔ string_agg
             (delivered_labels relation_table_outside (sh_monument_x_reason store)
                (sh_monument_reason store) k) ", " = None).
Proof.
  apply (relation_order point_geojson relation_table_outside label_table_outside
           store store_reordered 1);
    [reflexivity | reflexivity | apply perm_swap].
Defined.

Lemma geojson_fifteen_digits_witness :
  ∃ m, m ∈ sh_monuments store
       ∧ assoc "geojson"
           (select_list point_geojson rathaus (Some "Fire damage, Historic facade"))
         = Some (point_geojson (m_wkb_geometry m) 15).
Proof.
  apply (geojson_fifteen_digits point_geojson no_other_statement
           relation_table_outside store (VInt 1)
           [select_list point_geojson rathaus (Some "Fire damage, Historic facade")]);
    [vm_compute; reflexivity | left].
Defined.

Lemma monument_without_reasons_witness :
  ∃ rows r,
    get_monument_by_object_id point_geojson no_other_statement
      label_table_outside store (VInt 2) = Ok rows
    ∧ r ∈ rows
    ∧ r = select_list point_geojson speicher None
    ∧ assoc "monument_reason" r = Some VNone.
Proof.
  apply (monument_without_reasons point_geojson no_other_statement
           label_table_outside store 2 speicher).
  - right; left.
  - reflexivity.
  - intros x Hx. apply list_elem_of_In in Hx. simpl in Hx.
    destruct Hx as [<-|[<-|[]]]; discriminate.
Defined.

End MonumentExamples.

(** ** The startup hook *)

Section StartupFacts.

Import Startup.

Implicit Types (st : store) (t : string) (md ts : list string).

Lemma elem_of_rev t ts : t ∈ rev ts ↔ t ∈ ts.
Proof. rewrite !list_elem_of_In. symmetry. apply in_rev. Qed.

Lemma drop_tables_lookup ts st t :
  tables (foldl drop_table st ts) !! t
  = if decide (t ∈ ts) then None else tables st !! t.
Proof.
  revert st. induction ts as [|a ts IH]; intros st; simpl; [done|].
  rewrite IH. unfold drop_table.
  destruct (decide (t ∈ ts)) as [Hin|Hnin].
  - rewrite decide_True by (by right). done.
  - destruct (decide (t = a)) as [->|Hne].
    + rewrite decide_True by left.
      destruct (tables st !! a) eqn:Ha; simpl; [apply lookup_delete_eq|done].
    + rewrite decide_False by (rewrite elem_of_cons; tauto).
      destruct (tables st !! a); simpl; [by rewrite lookup_delete_ne|done].
Qed.

Lemma create_tables_lookup ts st t :
  tables (foldl create_table st ts) !! t
  = match tables st !! t with
    | Some rows => Some rows
    | None => if decide (t ∈ ts) then Some [] else None
    end.
Proof.
  revert st. induction ts as [|a ts IH]; intros st; simpl.
  - by destruct (tables st !! t).
  - rewrite IH. unfold create_table.
    destruct (decide (t = a)) as [->|Hne].
    + destruct (tables st !! a) eqn:Ha; simpl.
      * by rewrite Ha.
      * rewrite lookup_insert_eq. by rewrite decide_True by left.
    + destruct (tables st !! a) eqn:Ha; simpl.
      * destruct (tables st !! t); [done|].
        destruct (decide (t ∈ ts)).
        -- by rewrite decide_True by (by right).
        -- by rewrite decide_False by (rewrite elem_of_cons; tauto).
      * rewrite lookup_insert_ne by done.
        destruct (tables st !! t); [done|].
        destruct (decide (t ∈ ts)).
        -- by rewrite decide_True by (by right).
        -- by rewrite decide_False by (rewrite elem_of_cons; tauto).
Qed.

(** The statements of [drop_all]: one [DROP] for each listed table that
    exists. *)
Lemma drop_tables_journal ts st :
  ∃ ds, journal (foldl drop_table st ts) = (journal st ++ (DropTable <$> ds))%list
        ∧ ∀ t, t ∈ ds ↔ t ∈ ts ∧ is_Some (tables st !! t).
Proof.
  revert st. induction ts as [|a ts IH]; intros st; simpl.
  - exists []. split; [by rewrite app_nil_r|].
    intros t. rewrite !elem_of_nil. tauto.
  - destruct (IH (drop_table st a)) as (ds & Hj & Hds).
    unfold drop_table in *. destruct (tables st !! a) eqn:Ha; simpl in *.
    + exists (a :: ds). split; [by rewrite Hj, <- app_assoc|].
      intros t. rewrite !elem_of_cons, Hds.
      destruct (decide (t = a)) as [->|Hne].
      * rewrite Ha. split; [|tauto]. intros _. split; [by left|by eexists].
      * rewrite lookup_delete_ne by done. tauto.
    + exists ds. split; [done|].
      intros t. rewrite elem_of_cons, Hds.
      split; [tauto|]. intros [[->|Hin] Hs]; [|done].
      rewrite Ha in Hs. by destruct Hs.
Qed.

(** The statements of [create_all]: one [CREATE] for each listed table
    that does not exist. *)
Lemma create_tables_journal ts st :
  ∃ cs, journal (foldl create_table st ts) = (journal st ++ (CreateTable <$> cs))%list
        ∧ ∀ t, t ∈ cs ↔ t ∈ ts ∧ tables st !! t = None.
Proof.
  revert st. induction ts as [|a ts IH]; intros st; simpl.
  - exists []. split; [by rewrite app_nil_r|].
    intros t. rewrite !elem_of_nil. tauto.
  - destruct (IH (create_table st a)) as (cs & Hj & Hcs).
    unfold create_table in *. destruct (tables st !! a) eqn:Ha; simpl in *.
    + exists cs. split; [done|].
      intros t. rewrite elem_of_cons, Hcs.
      split; [tauto|]. intros [[->|Hin] Hn]; [congruence|done].
    + exists (a :: cs). split; [by rewrite Hj, <- app_assoc|].
      intros t. rewrite !elem_of_cons, Hcs.
      destruct (decide (t = a)) as [->|Hne].
      * tauto.
      * rewrite lookup_insert_ne by done. tauto.
Qed.

(** The statements the hook adds do not depend on what the connection
    executed before. *)
Lemma drop_table_after before st t :
  drop_table (after before st) t = after before (drop_table st t).
Proof.
  unfold drop_table, after. simpl.
  destruct (tables st !! t); simpl; [|done]. by rewrite app_assoc.
Qed.

Lemma create_table_after before st t :
  create_table (after before st) t = after before (create_table st t).
Proof.
  unfold create_table, after. simpl.
  destruct (tables st !! t); simpl; [done|]. by rewrite app_assoc.
Qed.

Lemma init_schemas_after before md st :
  init_schemas md (after before st) = after before (init_schemas md st).
Proof.
  unfold init_schemas, create_all, drop_all.
  assert (Hd : ∀ ts st0, foldl drop_table (after before st0) ts
                         = after before (foldl drop_table st0 ts)).
  { induction ts as [|a ts IH]; intros st0; simpl; [done|].
    by rewrite drop_table_after, IH. }
  assert (Hc : ∀ ts st0, foldl create_table (after before st0) ts
                         = after before (foldl create_table st0 ts)).
  { induction ts as [|a ts IH]; intros st0; simpl; [done|].
    by rewrite create_table_after, IH. }
  by rewrite Hd, Hc.
Qed.

(** C9. The hook is [drop_all] followed by [create_all]: afterwards every
    declared table exists and is empty, whatever it held, and the other
    tables are untouched; the statements on the connection are the drops of
    the declared tables that existed, then the creations of all declared
    tables; and in a process all of them come before the first response. *)
Theorem init_schemas_recreates md st (requests : list (result Main.returned)) :
  init_schemas md st = create_all md (drop_all md st)
  ∧ (∀ t, t ∈ md → tables (init_schemas md st) !! t = Some [])
  ∧ (∀ t, t ∉ md → tables (init_schemas md st) !! t = tables st !! t)
  ∧ ∃ ds cs,
      journal (init_schemas md st)
      = (journal st ++ (DropTable <$> ds) ++ (CreateTable <$> cs))%list
      ∧ (∀ t, t ∈ ds ↔ t ∈ md ∧ is_Some (tables st !! t))
      ∧ (∀ t, t ∈ cs ↔ t ∈ md)
      ∧ process md st requests
        = ((Statement <$> ((DropTable <$> ds) ++ (CreateTable <$> cs)))
           ++ (Served <$> (Main.fastapi <$> requests)))%list.
Proof.
  split; [done|].
  assert (Hlook : ∀ st0 t, tables (init_schemas md st0) !! t
                    = if decide (t ∈ md) then Some [] else tables st0 !! t).
  { intros st0 t. unfold init_schemas, create_all, drop_all.
    rewrite create_tables_lookup, drop_tables_lookup.
    destruct (decide (t ∈ md)) as [Hin|Hnin].
    - rewrite decide_True by (by apply elem_of_rev). done.
    - rewrite decide_False by (by rewrite elem_of_rev).
      by destruct (tables st0 !! t). }
  split; [intros t Ht; by rewrite Hlook, decide_True|].
  split; [intros t Ht; by rewrite Hlook, decide_False|].
  assert (Hjour : ∀ st0, ∃ ds cs,
             journal (init_schemas md st0)
             = (journal st0 ++ (DropTable <$> ds) ++ (CreateTable <$> cs))%list
             ∧ (∀ t, t ∈ ds ↔ t ∈ md ∧ is_Some (tables st0 !! t))
             ∧ (∀ t, t ∈ cs ↔ t ∈ md)).
  { intros st0. unfold init_schemas, create_all, drop_all.
    destruct (drop_tables_journal (rev md) st0) as (ds & Hd & Hds).
    destruct (create_tables_journal md (foldl drop_table st0 (rev md)))
      as (cs & Hc & Hcs).
    exists ds, cs. split; [by rewrite Hc, Hd, <- app_assoc|]. split.
    - intros t. by rewrite Hds, elem_of_rev.
    - intros t. rewrite Hcs, drop_tables_lookup.
      destruct (decide (t ∈ rev md)) as [Hin|Hnin]; [tauto|].
      rewrite elem_of_rev in Hnin. tauto. }
  destruct (Hjour {| tables := tables st; journal := [] |})
    as (ds & cs & Hj & Hds & Hcs).
  simpl in Hj, Hds.
  exists ds, cs. split; [|split; [done|split; [done|]]].
  - replace st with (after (journal st) {| tables := tables st; journal := [] |})
      at 1 by (destruct st; unfold after; simpl; by rewrite app_nil_r).
    rewrite init_schemas_after. unfold after. simpl. by rewrite Hj.
  - unfold process. by rewrite Hj.
Qed.

End StartupFacts.

(** ** More on the handlers *)

Section HandlerShapes.

Import Main.

Context (coerce : field_type → value → option value).
Context (other_classes : string → model_class).

Implicit Types (rows : list row) (r : row) (kwargs : list (string * string)).
Implicit Types (cls : model_class) (args : list (string * value)).


Lemma validate_cases (t : field_type) (v : value) :
  (∃ v', validate coerce t v = Ok v') ∨ validate coerce t v = Raise ValidationError.
Proof.
  unfold validate.
  destruct t, v; try (left; by eexists); destruct (coerce _ _);
    first [left; by eexists | by right].
Qed.

Lemma construct_cases cls args :
  (∃ obj, construct coerce cls args = Ok obj)
  ∨ construct coerce cls args = Raise ValidationError.
Proof.
  unfold construct.
  assert (H : (∃ fs, construct_fields coerce cls args = Ok fs)
              ∨ construct_fields coerce cls args = Raise ValidationError).
  { induction cls as [|[f t] cls IH]; simpl; [left; by eexists|].
    destruct (assoc f args) as [v|]; [|by right].
    destruct (validate_cases t v) as [[v' ->]| ->]; simpl; [|by right].
    destruct IH as [[fs ->]| ->]; simpl; [left; by eexists|by right]. }
  destruct H as [[fs ->]| ->]; simpl; [left; by eexists|by right].
Qed.



Lemma comprehension_ok {A B} (f : A → result B) (l : list A) (l' : list B) :
  Forall2 (fun a b => f a = Ok b) l l' → comprehension f l = Ok l'.
Proof.
  induction 1 as [|a b l l' Hab _ IH]; [done|].
  simpl. rewrite Hab. simpl. by rewrite IH.
Qed.




(** X2. The districts listing answers 200 with one object per row, in the
    order of the rows, holding the row's integer [id] as [district_id] and
    its string [name] as [district_name]; other attributes of the rows are
    ignored. *)
Theorem get_districts_rows rows (objs : list value) :
  Forall2 (fun r obj => ∃ (i : Z) (n : string),
             assoc "id" r = Some (VInt i) ∧ assoc "name" r = Some (VStr n)
             ∧ obj = VDict [("district_id", VInt i); ("district_name", VStr n)])
    rows objs →
  fastapi (get_districts coerce other_classes rows) = JSONResponse (VList objs).
Proof.
  intros H. unfold get_districts. cbn zeta.
  rewrite (comprehension_ok _ _ objs); [done|].
  eapply Forall2_impl; [exact H|].
  intros r obj (i & n & Hi & Hn & ->).
  unfold call. cbn -[assoc]. unfold getattr. by rewrite Hi, Hn.
Qed.

(** X3. The district lookup answers 404 exactly when the service returned
    no row or a row without [id] or without [name]: the
    [except AttributeError] that turns a missing district into 404 also
    covers a row that lacks one of the two attributes, and nothing
    else. *)
Theorem get_district_not_found (row : option row) :
  fastapi (get_district coerce other_classes row) = not_found
  ↔ match row with
    | Some r => assoc "id" r = None ∨ assoc "name" r = None
    | None => True
    end.
Proof.
  destruct row as [r|]; [|done].
  unfold get_district, getattr_opt, getattr. cbn zeta.
  destruct (assoc "id" r) as [i|] eqn:Hi; cbn -[construct schemas];
    [|split; [by left|done]].
  destruct (assoc "name" r) as [n|] eqn:Hn; cbn -[construct schemas];
    [|split; [by right|done]].
  destruct (construct_cases (schemas other_classes "District")
              [("district_id", i); ("district_name", n)]) as [[obj ->]| ->];
    cbn; (split; [discriminate|by intros [?|?]]).
Qed.

End HandlerShapes.

Section HandlerShapeExamples.

Import Main Sample.

Lemma get_districts_rows_witness :
  fastapi (get_districts no_coercion no_other_class
             [ [("id", VInt 3); ("name", VStr "Altstadt"); ("area", VInt 7)];
               [("name", VStr "Neustadt"); ("id", VInt 1)] ])
  = JSONResponse
      (VList [ VDict [("district_id", VInt 3); ("district_name", VStr "Altstadt")];
               VDict [("district_id", VInt 1); ("district_name", VStr "Neustadt")] ]).
Proof.
  apply get_districts_rows.
  repeat constructor; eexists _, _; repeat split; reflexivity.
Defined.

End HandlerShapeExamples.

(** ** More on the monument query *)

Section MonumentMore.

Import Monument.

Context {geometry : Type} (ST_AsGeoJSON : geometry → Z → value).
Context (other_statement :
           string → gmap string (option value) → snapshot geometry → result (list row)).

Implicit Types (s : snapshot geometry) (m : sh_monuments_row geometry).
Implicit Types (q k : Z) (p : plan).

(** X4. For a 64-bit key, the function returns no row exactly when no
    stored monument has the key: a monument is never lost to the joins,
    and never invented. *)
Theorem no_row_iff_no_monument p s q :
  in_int64 q = true →
  get_monument_by_object_id ST_AsGeoJSON other_statement p s (VInt q) = Ok []
  ↔ Forall (fun m => m_id m ≠ q) (sh_monuments s).
Proof.
  intros Hq. rewrite get_monument_by_object_id_int by done.
  pose proof (monument_query_rows ST_AsGeoJSON p s q) as Hrows.
  assert (Hnil : monument_query ST_AsGeoJSON p s q = []
                 ↔ filter (fun m => m_id m = q) (sh_monuments s) = []).
  { split; intros H.
    - rewrite H in Hrows. apply Permutation_nil_l in Hrows.
      symmetry in Hrows. by apply fmap_nil_inv in Hrows.
    - rewrite H in Hrows. by apply Permutation_nil_r in Hrows. }
  split.
  - intros [= H]. apply Hnil in H. clear Hnil Hrows.
    induction (sh_monuments s) as [|m ms IH]; [constructor|].
    rewrite filter_cons in H. destruct (decide (m_id m = q)); [done|].
    constructor; [done|by apply IH].
  - intros H. f_equal. apply Hnil. clear Hnil Hrows.
    induction H as [|m ms Hm _ IH]; [done|].
    by rewrite filter_cons, decide_False.
Qed.

(** X5. Every returned row has the eleven columns of the SELECT list,
    under these names and in this order. *)
Theorem row_columns p s (object_id : value) (rows : list row) (r : row) :
  get_monument_by_object_id ST_AsGeoJSON other_statement p s object_id = Ok rows →
  r ∈ rows →
  fst <$> r
  = ["geojson"; "object_id"; "street"; "housenumber"; "postcode"; "city";
     "image_url"; "designation"; "description"; "monument_type";
     "monument_reason"].
Proof.
  intros Hrows Hr. rewrite get_monument_by_object_id_cases in Hrows.
  destruct object_id as [| |q| | |]; try discriminate.
  - injection Hrows as <-. by apply elem_of_nil in Hr.
  - destruct (in_int64 q); [|discriminate]. injection Hrows as <-.
    rewrite monument_query_rows in Hr.
    by apply list_elem_of_fmap in Hr as (m & -> & Hm).
Qed.

(** Two executions agree on a key as soon as the snapshots hold the same
    monuments with the key and the same labels for it. *)
Lemma answers_agree_of_listing p s p' s' q :
  filter (fun m => m_id m = q) (sh_monuments s')
  = filter (fun m => m_id m = q) (sh_monuments s) →
  label_listing (sh_monument_x_reason s') (sh_monument_reason s') q
  ≡ₚ label_listing (sh_monument_x_reason s) (sh_monument_reason s) q →
  answers_agree ST_AsGeoJSON p s p' s' q.
Proof.
  intros Hms Hlist. unfold answers_agree.
  split; [apply monument_query_rows|].
  split; [by rewrite monument_query_rows, Hms|].
  by rewrite !delivered_labels_perm.
Qed.

(** X6. What two executions return for a key agrees, up to the order of
    the rows and of the labels in [monument_reason], as soon as their
    snapshots hold the same monuments with that key, the same relation
    rows of that monument and the same labels: rows of other monuments,
    wherever they are stored among them, never show in the answer. *)
Theorem other_monuments_do_not_matter p s p' s' q :
  filter (fun m => m_id m = q) (sh_monuments s')
  = filter (fun m => m_id m = q) (sh_monuments s) →
  filter (fun x => mxr_monument_id x = q) (sh_monument_x_reason s')
  = filter (fun x => mxr_monument_id x = q) (sh_monument_x_reason s) →
  sh_monument_reason s' = sh_monument_reason s →
  answers_agree ST_AsGeoJSON p s p' s' q.
Proof.
  intros Hms Hmxr Hmr. apply answers_agree_of_listing; [done|].
  unfold label_listing. by rewrite Hmxr, Hmr.
Qed.

Lemma label_listing_perm_mr (mxr : list sh_monument_x_reason_row)
    (mr mr' : list sh_monument_reason_row) k :
  mr' ≡ₚ mr → label_listing mxr mr' k ≡ₚ label_listing mxr mr k.
Proof.
  intros Hmr. unfold label_listing.
  induction (filter _ mxr) as [|x xs IH]; [done|].
  rewrite !bind_cons, IH. apply Permutation_app_tail. by rewrite Hmr.
Qed.

(** X7. Storing the rows of [sh_monument_reason] in another order changes
    at most the order of the labels in [monument_reason]: the executions
    return the rows of the same monuments, built from the same labels. *)
Theorem label_table_order p s p' s' q :
  sh_monuments s' = sh_monuments s →
  sh_monument_x_reason s' = sh_monument_x_reason s →
  sh_monument_reason s' ≡ₚ sh_monument_reason s →
  answers_agree ST_AsGeoJSON p s p' s' q.
Proof.
  intros Hms Hmxr Hmr. apply answers_agree_of_listing; [by rewrite Hms|].
  rewrite Hmxr. by apply label_listing_perm_mr.
Qed.

Lemma filter_reason_none (a : Z) (mr : list sh_monument_reason_row) :
  Forall (fun r => mr_id r ≠ a) mr → filter (fun r => a = mr_id r) mr = [].
Proof.
  induction 1 as [|r rs Hr _ IH]; [done|].
  by rewrite filter_cons, decide_False.
Qed.

(** X8. A relation row whose [reason_id] names no row of
    [sh_monument_reason] is dropped by the inner join: wherever it is
    stored, the executions with and without it return the rows of the same
    monuments, built from the same labels. *)
Theorem dangling_relation_row p s p' s' q
    (x : sh_monument_x_reason_row) (before after : list sh_monument_x_reason_row) :
  sh_monuments s' = sh_monuments s →
  sh_monument_reason s' = sh_monument_reason s →
  sh_monument_x_reason s = (before ++ after)%list →
  sh_monument_x_reason s' = (before ++ x :: after)%list →
  Forall (fun r => mr_id r ≠ mxr_reason_id x) (sh_monument_reason s) →
  answers_agree ST_AsGeoJSON p s p' s' q.
Proof.
  intros Hms Hmr Hmxr Hmxr' Hx.
  apply answers_agree_of_listing; [by rewrite Hms|].
  unfold label_listing. rewrite Hmr, Hmxr, Hmxr'.
  rewrite !filter_app, !bind_app, filter_cons.
  destruct (decide (mxr_monument_id x = q)); [|done].
  by rewrite bind_cons, (filter_reason_none _ _ Hx).
Qed.

End MonumentMore.

Section MonumentMoreExamples.

Import Monument Sample Stores.

Lemma no_row_iff_no_monument_witness :
  get_monument_by_object_id point_geojson no_other_statement
    relation_table_outside store (VInt 3) = Ok []
  ↔ Forall (fun m => m_id m ≠ 3) (sh_monuments store).
Proof.
  apply (no_row_iff_no_monument point_geojson no_other_statement
           relation_table_outside store 3).
  reflexivity.
Defined.

Lemma row_columns_witness :
  fst <$> select_list point_geojson speicher None
  = ["geojson"; "object_id"; "street"; "housenumber"; "postcode"; "city";
     "image_url"; "designation"; "description"; "monument_type";
     "monument_reason"].
Proof.
  apply (row_columns point_geojson no_other_statement relation_table_outside
           store (VInt 2) [select_list point_geojson speicher None]);
    [vm_compute; reflexivity | left].
Defined.

Lemma other_monuments_do_not_matter_witness :
  answers_agree point_geojson relation_table_outside store
    label_table_outside store_interleaved 1.
Proof.
  apply (other_monuments_do_not_matter point_geojson relation_table_outside store
           label_table_outside store_interleaved 1);
    reflexivity.
Defined.

Lemma label_table_order_witness :
  answers_agree point_geojson label_table_outside store
    label_table_outside store_labels_reordered 1.
Proof.
  apply (label_table_order point_geojson label_table_outside store
           label_table_outside store_labels_reordered 1).
  - reflexivity.
  - reflexivity.
  - apply perm_swap.
Defined.

Lemma dangling_relation_row_witness :
  answers_agree point_geojson relation_table_outside store
    relation_table_outside store_dangling 1.
Proof.
  apply (dangling_relation_row point_geojson relation_table_outside store
           relation_table_outside store_dangling 1
           {| mxr_monument_id := 1; mxr_reason_id := 99 |}
           [ {| mxr_monument_id := 1; mxr_reason_id := 10 |} ]
           [ {| mxr_monument_id := 1; mxr_reason_id := 11 |} ]);
    try reflexivity.
  repeat constructor; discriminate.
Defined.

(** The label table in the other order, with that table outside: the
    labels of monument 1 come out in the other order. *)
Example label_table_order_shows :
  assoc "monument_reason"
    <$> monument_query point_geojson label_table_outside store_labels_reordered 1
  = [Some (VStr "Historic facade, Fire damage")].
Proof. by vm_compute. Qed.

End MonumentMoreExamples.

(** ** More on the startup hook *)

Section StartupMore.

Import Startup.

Implicit Types (st : store) (t : string) (md : list string).

Lemma init_schemas_lookup md st t :
  tables (init_schemas md st) !! t
  = if decide (t ∈ md) then Some [] else tables st !! t.
Proof.
  unfold init_schemas, create_all, drop_all.
  rewrite create_tables_lookup, drop_tables_lookup.
  destruct (decide (t ∈ md)) as [Hin|Hnin].
  - rewrite decide_True by (by apply elem_of_rev). done.
  - rewrite decide_False by (by rewrite elem_of_rev).
    by destruct (tables st !! t).
Qed.

(** X9. Running the hook a second time leaves the tables as the first run
    left them, and the tables after a run do not depend on what the
    declared tables held before. *)
Theorem init_schemas_idempotent md st st' :
  tables (init_schemas md (init_schemas md st)) = tables (init_schemas md st)
  ∧ ((∀ t, t ∉ md → tables st' !! t = tables st !! t) →
     tables (init_schemas md st') = tables (init_schemas md st)).
Proof.
  split.
  - apply map_eq. intros t. rewrite !init_schemas_lookup.
    by destruct (decide (t ∈ md)).
  - intros Hsame. apply map_eq. intros t. rewrite !init_schemas_lookup.
    destruct (decide (t ∈ md)); [done|by apply Hsame].
Qed.

(** X10. After the hook the store has exactly the tables it had and the
    declared ones. *)
Theorem init_schemas_dom md st :
  dom (tables (init_schemas md st)) = dom (tables st) ∪ list_to_set md.
Proof.
  apply set_eq. intros t.
  rewrite elem_of_union, !elem_of_dom, elem_of_list_to_set, init_schemas_lookup.
  destruct (decide (t ∈ md)) as [Hin|Hnin].
  - split; [by right|by eexists].
  - split; [by left|]. by intros [?|?].
Qed.

(** X11. The loss of rows is the doing of [drop_all]: after it no declared
    table exists, while [create_all] on its own keeps every existing table
    with its rows and executes nothing when all declared tables exist. *)
Theorem create_all_keeps_rows md st :
  (∀ t, t ∈ md → tables (drop_all md st) !! t = None)
  ∧ (∀ t rows', tables st !! t = Some rows' →
       tables (create_all md st) !! t = Some rows')
  ∧ (Forall (fun t => is_Some (tables st !! t)) md → create_all md st = st).
Proof.
  split; [|split].
  - intros t Ht. unfold drop_all. rewrite drop_tables_lookup.
    by rewrite decide_True by (by apply elem_of_rev).
  - intros t rows' Ht. unfold create_all. by rewrite create_tables_lookup, Ht.
  - unfold create_all. revert st.
    induction md as [|a md IH]; intros st Hall; [done|].
    apply Forall_cons in Hall as [[rows' Ha] Hall]. simpl.
    unfold create_table at 2. rewrite Ha. by apply IH.
Qed.

End StartupMore.

(** ** The routes *)

Section RoutingFacts.

Import Routing RoutingCheck.

Implicit Types (table : list route) (path : list string) (rt : route).
Implicit Types (pattern target : list segment) (excluded : list string).

Lemma matches_own pattern (seg : string) :
  seg ≠ "" → matches pattern (instantiate seg pattern) = true.
Proof.
  intros Hne. induction pattern as [|[l|x|] pattern IH]; simpl; [done| | |done].
  - by rewrite String.eqb_refl.
  - rewrite IH. by destruct (String.eqb_spec seg "").
Qed.

Lemma may_take_sound excluded pattern target (seg : string) :
  may_take excluded pattern target = false →
  seg ≠ "" → seg ∉ excluded →
  matches pattern (instantiate seg target) = false.
Proof.
  intros Hno Hne Hex. revert target Hno.
  induction pattern as [|[l|x|] pattern IH]; intros [|[l'|x'|] target] Hno;
    simpl in *; try done.
  all: try (apply andb_false_iff in Hno as [Hno|Hno]).
  all: try (rewrite (IH _ Hno); apply andb_false_r).
  all: try (by rewrite Hno).
  apply negb_false_iff, bool_decide_eq_true in Hno.
  destruct (String.eqb_spec l seg) as [->|?]; [|done].
  destruct Hno as [?|?]; done.
Qed.

Lemma reached_sound excluded table rt (seg : string) :
  reached excluded table rt = true →
  seg ≠ "" → seg ∉ excluded →
  resolve table (instantiate seg (route_path rt)) = Some (endpoint rt).
Proof.
  intros Hr Hne Hex. induction table as [|r table IH]; [done|].
  simpl in *. destruct (bool_decide_reflect (r = rt)) as [->|Hrt].
  - by rewrite matches_own.
  - apply andb_true_iff in Hr as [Hno Hr].
    apply negb_true_iff in Hno.
    rewrite (may_take_sound _ _ _ seg Hno Hne Hex). by apply IH.
Qed.

(** X12. Under [/demographics/v1], any single non-empty piece other than
    [meta] and [details] is taken as a district id, the word [districts]
    without its final slash included. *)
Theorem district_id_route (seg : string) :
  seg ≠ "" → seg ≠ "meta" → seg ≠ "details" →
  resolve app_routes ["demographics"; "v1"; seg] = Some "get_district".
Proof.
  intros Hne Hmeta Hdetails.
  apply (reached_sound ["meta"; "details"] app_routes
           (get [Lit "demographics"; Lit "v1"; Param "district_id"] "get_district"));
    [by vm_compute|done|].
  rewrite !not_elem_of_cons. split; [done|]. split; [done|]. apply not_elem_of_nil.
Qed.

Lemma district_id_route_witness :
  resolve app_routes ["demographics"; "v1"; "districts"] = Some "get_district".
Proof. apply district_id_route; discriminate. Defined.

(** X13. Every route under a district id is reached by every non-empty id
    other than the word [districts]: no route registered before it takes
    such a path. *)
Theorem per_district_routes_reached :
  Forall (fun rt => ∀ seg, seg ≠ "" → seg ≠ "districts" →
            resolve app_routes (instantiate seg (route_path rt)) = Some (endpoint rt))
    (filter (fun rt => per_district rt = true) app_routes).
Proof.
  assert (Hall : Forall (fun rt => reached ["districts"] app_routes rt = true)
                   (filter (fun rt => per_district rt = true) app_routes)).
  { apply (bool_decide_unpack _). by vm_compute. }
  eapply Forall_impl; [exact Hall|].
  intros rt Hr seg Hne Hd. apply (reached_sound ["districts"]); [done|done|].
  rewrite not_elem_of_cons. split; [done|]. apply not_elem_of_nil.
Qed.

Lemma resolve_app table table' path :
  resolve (table ++ table') path
  = match resolve table path with
    | Some e => Some e
    | None => resolve table' path
    end.
Proof.
  induction table as [|rt table IH]; [done|].
  simpl. by destruct (matches (route_path rt) path).
Qed.

Lemma resolve_Some table path (e : string) :
  resolve table path = Some e → e ∈ endpoint <$> table.
Proof.
  induction table as [|rt table IH]; [done|].
  simpl. destruct (matches (route_path rt) path).
  - intros [= <-]. left.
  - intros H. right. by apply IH.
Qed.

Lemma resolve_None table path rt :
  resolve table path = None → rt ∈ table → matches (route_path rt) path = false.
Proof.
  induction table as [|rt' table IH]; intros Hres Hin.
  - by apply elem_of_nil in Hin.
  - simpl in Hres. destruct (matches (route_path rt') path) eqn:Hm; [done|].
    apply elem_of_cons in Hin as [->|Hin]; [done|by apply IH].
Qed.

(** X14. No request is ever dispatched to
    [get_residents_housing_benefit_by_districts]: the route before it has
    the same path. Every other route of the application is reached by its
    own path. *)
Theorem shadowed_route :
  (∀ path, resolve app_routes path
           ≠ Some "get_residents_housing_benefit_by_districts")
  ∧ Forall (fun rt => endpoint rt = "get_residents_housing_benefit_by_districts"
                      ∨ resolve app_routes (instantiate "1" (route_path rt))
                        = Some (endpoint rt))
      app_routes.
Proof.
  split.
  - intros path Hres.
    set (dead := "get_residents_housing_benefit_by_districts") in *.
    set (first := get [Lit "demographics"; Lit "v1"; Lit "districts";
                       Lit "residents"; Lit "housing"; Lit "benefit"]
                    "get_residents_housing_benefit_by_district'").
    assert (Hsplit : app_routes
                     = (take 51 app_routes
                        ++ get (route_path first) dead :: drop 52 app_routes)%list)
      by (by vm_compute).
    assert (Hfirst : first ∈ take 51 app_routes)
      by (apply (bool_decide_unpack _); by vm_compute).
    assert (Hpre : dead ∉ endpoint <$> take 51 app_routes)
      by (apply (bool_decide_unpack _); by vm_compute).
    assert (Hpost : dead ∉ endpoint <$> drop 52 app_routes)
      by (apply (bool_decide_unpack _); by vm_compute).
    rewrite Hsplit, resolve_app in Hres.
    destruct (resolve (take 51 app_routes) path) as [e|] eqn:Hhead.
    + injection Hres as ->. by apply Hpre, (resolve_Some _ path).
    + apply (resolve_None _ _ first) in Hhead; [|done].
      simpl in Hres. simpl in Hhead. rewrite Hhead in Hres.
      by apply Hpost, (resolve_Some _ path).
  - apply (bool_decide_unpack _). by vm_compute.
Qed.

End RoutingFacts.
